(** * icepack.datasets: fetching and caching of glaciological data sets

    A shallow embedding of [src/icepack/datasets.py] and the properties of
    its fetch pipeline.  The module's functions talk to the disk cache and to
    remote services through [pooch], [earthaccess] and [requests]; here they
    are computations in a state-and-exception monad over the cache directory's
    files, which also records the calls made to those collaborators. *)

From Stdlib Require Import String Ascii List Bool Arith Lia.
From stdpp Require Import base option list strings gmap.

Local Open Scope string_scope.

(** ** Python values and exceptions *)

(** The exception classes that the module raises or lets through.
    [ExternalError] stands for any failure inside a collaborator that is not
    one of the built-in classes named here (HTTP, authentication, zip). *)
Inductive exn : Type :=
  | KeyError (key : string)
  | IndexError
  | NameError (ident : string)
  | ValueError (msg : string)
  | TypeError
  | ExternalError (msg : string).

(** What a fetch hands back: a path ([str]) or a list.  [pooch.retrieve]
    returns either, depending on the processor, and [_fetch_nsidc] puts these
    in a list of its own, so lists nest. *)
#[warnings="-register-all"]
Inductive pyval : Type :=
  | PStr (s : string)
  | PList (l : list pyval).

(** [pooch]'s description of what [retrieve] did with the cache. *)
Inductive action : Type := Download | Update | Fetch.

(** A [DataCollection] as far as the module looks at it: its [summary()]
    dict, of which only the list under ["get-data"] is read. *)
Record DataCollection : Type := { summary : gmap string (list string) }.

(** A [DataGranule]: its [data_links()]. *)
Record DataGranule : Type := { data_links : list string }.

(** Calls that leave the process. *)
Inductive event : Type :=
  | EvSearchDatasets (search : gmap string string)
  | EvSearchData (search : gmap string string)
  | EvLogin
  | EvHttpGet (url : string)
  | EvDownload (url : string) (output_file : string)
  | EvUnzip (fname : string).

(** ** The monad: cache files in, result or exception out *)

Record outcome (A : Type) : Type := Outcome {
  value : exn + A;
  disk : gmap string string;
  events : list event
}.
Arguments Outcome {A} _ _ _.
Arguments value {A} _.
Arguments disk {A} _.
Arguments events {A} _.

Definition M (A : Type) : Type := gmap string string -> outcome A.

Definition ret {A} (a : A) : M A := fun fs => Outcome (inr a) fs [].

Definition raise {A} (e : exn) : M A := fun fs => Outcome (inl e) fs [].

Definition bind {A B} (m : M A) (k : A -> M B) : M B := fun fs =>
  let o := m fs in
  match value o with
  | inl e => Outcome (inl e) (disk o) (events o)
  | inr a => let o' := k a (disk o) in
             Outcome (value o') (disk o') (events o ++ events o')
  end.

#[global] Instance M_ret : MRet M := @ret.
#[global] Instance M_bind : MBind M := fun A B k m => bind m k.

(** [try: body except KeyError: handler]. Effects of the failed body stay. *)
Definition try_except_KeyError {A} (body handler : M A) : M A := fun fs =>
  let o := body fs in
  match value o with
  | inl (KeyError _) =>
      let o' := handler (disk o) in
      Outcome (value o') (disk o') (events o ++ events o')
  | _ => o
  end.

Definition emit (e : event) : M unit := fun fs => Outcome (inr tt) fs [e].

(** The answer of a collaborator, lifted into the monad. *)
Definition answer {A} (r : exn + A) : M A :=
  match r with inl e => raise e | inr a => ret a end.

(** [Path(path).exists()] for a place in the cache, read as: a file is
    there.  The map holds files only; directories are no part of it. *)
Definition file_exists (path : string) : M bool :=
  fun fs => Outcome (inr (bool_decide (is_Some (fs !! path)))) fs [].

Definition write_file (path body : string) : M unit :=
  fun fs => Outcome (inr tt) (<[path := body]> fs) [].

(** [d[key]] on a dict. *)
Definition py_getitem {V} (d : gmap string V) (key : string) : M V :=
  match d !! key with
  | Some v => ret v
  | None => raise (KeyError key)
  end.

(** [l[0]] on a list. *)
Definition py_index0 {A} (l : list A) : M A :=
  match l with
  | x :: _ => ret x
  | [] => raise IndexError
  end.

(** [for x in l: s = body(s, x)]. *)
Fixpoint py_for {A S} (l : list A) (s : S) (body : S -> A -> M S) : M S :=
  match l with
  | [] => ret s
  | x :: l' => s' ← body s x; py_for l' s' body
  end.

(** [[f(x) for x in l]]. *)
Fixpoint py_listcomp {A B} (f : A -> M B) (l : list A) : M (list B) :=
  match l with
  | [] => ret []
  | x :: l' => y ← f x; ys ← py_listcomp f l'; ret (y :: ys)
  end.

(** [needle in hay] for two strings: substring test. *)
Fixpoint str_contains (needle hay : string) : bool :=
  String.prefix needle hay ||
  match hay with
  | EmptyString => false
  | String _ hay' => str_contains needle hay'
  end.

(** [name in f] for a string [name]: substring test when [f] is a string,
    membership by equality when [f] is a list. *)
Definition py_in (name : string) (f : pyval) : bool :=
  match f with
  | PStr s => str_contains name s
  | PList l =>
      existsb (fun x => match x with PStr t => String.eqb name t | PList _ => false end) l
  end.

(** Iterating over a value: the characters of a string, the items of a list. *)
Definition py_iter (v : pyval) : list pyval :=
  match v with
  | PStr s => map (fun c => PStr (String c EmptyString)) (list_ascii_of_string s)
  | PList l => l
  end.

(** [seq[0] if len(seq) == 1 else seq]. *)
Definition unwrap_single (seq : list pyval) : pyval :=
  if Nat.eqb (List.length seq) 1 then List.nth 0 seq (PList seq) else PList seq.

(** ** pathlib: the two properties the module reads *)

Module pathlib.

(** The pieces of a path between its slashes. *)
Fixpoint split_slash (s : string) : list string :=
  match s with
  | EmptyString => [EmptyString]
  | String c s' =>
      if Ascii.eqb c "/" then EmptyString :: split_slash s'
      else match split_slash s' with
           | p :: ps => String c p :: ps
           | [] => [String c EmptyString]
           end
  end.

(** [PurePosixPath(p).parts] without the root: empty pieces and ["."]
    pieces are dropped when the path is parsed. *)
Definition parts (p : string) : list string :=
  List.filter (fun c => negb (String.eqb c EmptyString) && negb (String.eqb c "."))
              (split_slash p).

(** [Path(p).name]: the final component, empty if there is none. *)
Definition name (p : string) : string := List.last (parts p) EmptyString.

(** [s.rfind(c)], [None] for -1. *)
Fixpoint rfind (c : ascii) (s : string) : option nat :=
  match s with
  | EmptyString => None
  | String a s' =>
      match rfind c s' with
      | Some i => Some (S i)
      | None => if Ascii.eqb a c then Some 0 else None
      end
  end.

(** [Path(p).suffix]: from the last dot of the name on, unless that dot is
    the first or the last character of the name. *)
Definition suffix (p : string) : string :=
  let nm := name p in
  match rfind "." nm with
  | Some i =>
      if Nat.ltb 0 i && Nat.ltb i (String.length nm - 1)
      then String.substring i (String.length nm - i) nm
      else EmptyString
  | None => EmptyString
  end.

End pathlib.


(** ** The collaborators

    [pooch], [earthaccess] and [requests] are not part of the module.  Each
    is taken as a function that answers a call with a result or an exception;
    the remote side is taken to stay as it is while a fetch runs. *)

Record collaborators : Type := {
  (** [pooch.os_cache(project)]: the cache directory of a project. *)
  pooch_os_cache : string -> string;
  (** [earthaccess.search_datasets] with the search as keywords. *)
  earthaccess_search_datasets : gmap string string -> exn + list DataCollection;
  (** [earthaccess.search_data] with the search as keywords. *)
  earthaccess_search_data : gmap string string -> exn + list DataGranule;
  (** [earthaccess.login()], then the user name and password of
      [earthaccess.__auth__]. *)
  earthaccess_login : exn + (string * string);
  (** [requests.get(url).url]: where the URL leads after redirections. *)
  requests_get_url : string -> exn + string;
  (** The body that an HTTP transfer of a URL brings, with or without
      credentials. *)
  http_transfer : option (string * string) -> string -> exn + string;
  (** [pooch.Unzip()(fname, action, pup)] on the files at hand: the paths of
      the extracted members, and the files afterwards. *)
  zip_extract : string -> action -> gmap string string ->
                exn + (list string * gmap string string)
}.

(** A keyword argument of [_fetch_nsidc]: a string, or a processor, which
    [pooch.retrieve] calls as [processor(fname, action, pooch)]. *)
Inductive kwarg : Type :=
  | KwStr (s : string)
  | KwProc (p : string -> action -> M pyval).

(** [a + b] where [a] is a string and [b] what a keyword brought. *)
Definition py_add (a : string) (b : kwarg) : M string :=
  match b with
  | KwStr s => ret (a +:+ s)
  | KwProc _ => raise TypeError
  end.

(** The names bound at module level in [datasets.py]. *)
Definition module_scope : list string :=
  [ "pathlib"; "requests"; "pooch"; "earthaccess"; "EarthdataDownloader";
    "_fetch_nsidc"; "fetch_measures_antarctica"; "fetch_measures_greenland";
    "fetch_bedmachine_antarctica"; "fetch_bedmachine_greenland";
    "fetch_mosaic_of_antarctica"; "fetch_mosaic_of_greenland";
    "_recursive_unzip"; "fetch_randolph_glacier_inventory";
    "get_glacier_names"; "fetch_outline" ].

(** Reading a variable inside a function whose local names are [locals]:
    an unbound name raises [NameError].  A bound one is read as its text; no
    caller below reads a bound name this way. *)
Definition load_name (locals : list string) (ident : string) : M string :=
  if existsb (String.eqb ident) (locals ++ module_scope)%list
  then ret ("<" +:+ ident +:+ ">")
  else raise (NameError ident).

(** ** The module *)

Section Datasets.

Context (E : collaborators).

(** [pooch.HTTPDownloader(auth=auth, progressbar=True)(url, output_file, _)]
    as [pooch.retrieve] calls it: the transfer goes to a temporary file,
    which is moved to [output_file] once the transfer is complete, so a
    failed one leaves [output_file] as it was. *)
Definition HTTPDownloader (auth : option (string * string))
    (url output_file : string) : M unit :=
  emit (EvDownload url output_file);;
  body ← answer (http_transfer E auth url);
  write_file output_file body.

(** [EarthdataDownloader.__call__]. *)
Definition EarthdataDownloader (url output_file : string) : M unit :=
  emit EvLogin;;
  auth ← answer (earthaccess_login E);
  emit (EvHttpGet url);;
  final_url ← answer (requests_get_url E url);
  HTTPDownloader (Some auth) final_url output_file.

(** [pooch.retrieve(url, known_hash=None, fname=fname, path=path,
    downloader=downloader, processor=processor)].  Without a hash an
    existing file is never updated.  The cache is a map of files, and
    [fname] is read as the name of a file in [path]: a name that stands for
    a directory (the empty name, [..]) is outside what is described here. *)
Definition pooch_retrieve (url fname path : string)
    (downloader : string -> string -> M unit)
    (processor : option kwarg) : M pyval :=
  let full_path := path +:+ "/" +:+ fname in
  present ← file_exists full_path;
  let action := if present : bool then Fetch else Download in
  (if present : bool then ret tt else downloader url full_path);;
  match processor with
  | None => ret (PStr full_path)
  | Some (KwProc p) => p full_path action
  | Some (KwStr _) => raise TypeError
  end.

(** [pooch.Unzip()(fname, action, pup)]. *)
Definition pooch_Unzip (fname : string) (act : action) : M (list string) :=
  fun fs =>
    match zip_extract E fname act fs with
    | inl e => Outcome (inl e) fs [EvUnzip fname]
    | inr (members, fs') => Outcome (inr members) fs' [EvUnzip fname]
    end.

(** Lines 42-45 of [_fetch_nsidc], the [try] block: the metadata strategy. *)
Definition metadata_strategy (search : gmap string string)
    (kwargs : gmap string kwarg) : M (list string) :=
  extra ← py_getitem kwargs "extra";
  filename ← py_getitem kwargs "filename";
  emit (EvSearchDatasets search);;
  results ← answer (earthaccess_search_datasets E search);
  first ← py_index0 results;
  get_data ← py_getitem (summary first) "get-data";
  base ← py_index0 get_data;
  with_extra ← py_add base extra;
  url ← py_add with_extra filename;
  ret [url].

(** Lines 47-48 of [_fetch_nsidc], the [except KeyError] block: the granule
    strategy. *)
Definition granule_strategy (search : gmap string string) : M (list string) :=
  emit (EvSearchData search);;
  results ← answer (earthaccess_search_data E search);
  first ← py_index0 results;
  ret (data_links first).

(** Lines 41-48 of [_fetch_nsidc]: the URLs to retrieve. *)
Definition _fetch_nsidc_urls (search : gmap string string)
    (kwargs : gmap string kwarg) : M (list string) :=
  try_except_KeyError (metadata_strategy search kwargs)
                      (granule_strategy search).

(** Lines 34-52 of [_fetch_nsidc]: the list [filenames]. *)
Definition _fetch_nsidc_filenames (search : gmap string string)
    (kwargs : gmap string kwarg) : M (list pyval) :=
  let processor := kwargs !! "processor" in
  let kwargs := delete "processor" kwargs in
  urls ← _fetch_nsidc_urls search kwargs;
  py_listcomp
    (fun url => pooch_retrieve url (pathlib.name url)
                  (pooch_os_cache E "icepack") EarthdataDownloader processor)
    urls.

Definition _fetch_nsidc (search : gmap string string)
    (kwargs : gmap string kwarg) : M pyval :=
  filenames ← _fetch_nsidc_filenames search kwargs;
  ret (unwrap_single filenames).

Definition _recursive_unzip (top_level_filename : string) (act : action)
    : M (list string) :=
  filenames ← pooch_Unzip top_level_filename act;
  results ← py_for filenames []
    (fun results filename =>
       if String.eqb (pathlib.suffix filename) ".zip"
       then inner_filenames ← pooch_Unzip filename act;
            ret (results ++ inner_filenames)%list
       else ret results);
  ret (List.filter (fun r => String.eqb (pathlib.suffix r) ".shp") results).

(** [_recursive_unzip] as [pooch.retrieve] receives it. *)
Definition recursive_unzip_processor : kwarg :=
  KwProc (fun fname act =>
            results ← _recursive_unzip fname act;
            ret (PList (map PStr results))).

Definition rgi_search : gmap string string :=
  <["short_name" := "NSIDC-0770"]> (<["version" := "7"]> ∅).

Definition rgi_kw : gmap string kwarg :=
  <["filename" := KwStr "RGI2000-v7.0-G-global.zip"]>
    (<["extra" := KwStr "global_files/"]>
       (<["processor" := recursive_unzip_processor]> ∅)).

Definition fetch_randolph_glacier_inventory (name : option string) : M pyval :=
  all_filenames ← _fetch_nsidc rgi_search rgi_kw;
  match name with
  | None => ret all_filenames
  | Some name =>
      let filenames := List.filter (py_in name) (py_iter all_filenames) in
      if Nat.eqb (List.length filenames) 0
      then raise (ValueError ("`" +:+ name +:+ "` not a valid RGI region!"))
      else ret (unwrap_single filenames)
  end.

Definition get_glacier_names : list string :=
  [ "amery"; "filchner-ronne"; "getz"; "helheim"; "hiawatha"; "jakobshavn";
    "larsen-2015"; "larsen-2018"; "larsen-2019"; "pine-island"; "ross" ].

Definition default_commit : string :=
  "5906b7c21d844a982aa012e934fe29b31ef13d41".

Definition outlines_url : string :=
  "https://raw.githubusercontent.com/icepack/glacier-meshes".

(** [commit or default_commit]: [None] and the empty string are false. *)
Definition commit_or_default (commit : option string) : string :=
  match commit with
  | None => default_commit
  | Some EmptyString => default_commit
  | Some c => c
  end.

(** Line 140 of [fetch_outline]: the URL of an outline. *)
Definition outline_url (name : string) (commit : option string) : string :=
  outlines_url +:+ "/" +:+ commit_or_default commit +:+ "/glaciers/"
    +:+ name +:+ ".geojson".

Definition fetch_outline (name : string) (commit : option string) : M pyval :=
  if negb (existsb (String.eqb name) get_glacier_names)
  then names ← load_name ["name"; "commit"] "names";
       raise (ValueError ("Glacier name '" +:+ name +:+ "' not in " +:+ names))
  else
    let url := outline_url name commit in
    pooch_retrieve url (name +:+ ".geojson") (pooch_os_cache E "icepack")
      (HTTPDownloader None) None.

End Datasets.

(** ** Reading a run *)

Definition is_search_datasets (e : event) : bool :=
  match e with EvSearchDatasets _ => true | _ => false end.

Definition is_search_data (e : event) : bool :=
  match e with EvSearchData _ => true | _ => false end.

Definition is_download (e : event) : bool :=
  match e with EvDownload _ _ => true | _ => false end.

(** A run that queried dataset collections, as the metadata strategy does,
    and a run that queried granules, as the granule strategy does.  A run can
    do both: the metadata strategy first, then the granule strategy, whose
    URLs it then gets. *)
Definition uses_metadata_strategy (evs : list event) : bool :=
  existsb is_search_datasets evs.

Definition uses_granule_strategy (evs : list event) : bool :=
  existsb is_search_data evs.

(** A catalog query that the run made came back with zero records. *)
Definition empty_query_result (E : collaborators)
    (search : gmap string string) (evs : list event) : Prop :=
  (uses_metadata_strategy evs = true /\
   earthaccess_search_datasets E search = inr []) \/
  (uses_granule_strategy evs = true /\
   earthaccess_search_data E search = inr []).

(** What the granule strategy comes to, given the catalog's answer. *)
Definition granule_links (E : collaborators) (search : gmap string string)
    : exn + list string :=
  match earthaccess_search_data E search with
  | inl e => inl e
  | inr [] => inl IndexError
  | inr (first :: _) => inr (data_links first)
  end.

(** What the metadata strategy comes to, given the catalog's answer and the
    two keywords. *)
Definition metadata_url (E : collaborators) (search : gmap string string)
    (extra filename : kwarg) : exn + list string :=
  match earthaccess_search_datasets E search with
  | inl e => inl e
  | inr [] => inl IndexError
  | inr (first :: _) =>
      match summary first !! "get-data" with
      | None => inl (KeyError "get-data")
      | Some [] => inl IndexError
      | Some (base :: _) =>
          match extra, filename with
          | KwStr e, KwStr f => inr [(base +:+ e) +:+ f]
          | _, _ => inl TypeError
          end
      end
  end.

(** A keyword was passed to the call. *)
Definition supplied (kwargs : gmap string kwarg) (key : string) : Prop :=
  is_Some (kwargs !! key).

Definition is_zip (filename : string) : bool :=
  String.eqb (pathlib.suffix filename) ".zip".

Definition is_shp (filename : string) : bool :=
  String.eqb (pathlib.suffix filename) ".shp".

(** ** What the recursive unzip is to return, in two readings *)

Section UnzipOutputs.

Context (E : collaborators).

(** Unzipping, in order, every entry of a listing that is itself a zip. *)
Definition unzip_nested (filenames : list string) (act : action)
    : M (list (list string)) :=
  py_listcomp (fun f => pooch_Unzip E f act) (List.filter is_zip filenames).

(** The outputs of the nested archives only. *)
Definition nested_unzip_outputs (top_level_filename : string) (act : action)
    : M (list string) :=
  filenames ← pooch_Unzip E top_level_filename act;
  inner ← unzip_nested filenames act;
  ret (concat inner).

(** All unzip outputs, as the specification words it: those of the top-level
    extraction and those of each nested zip. *)
Definition all_unzip_outputs (top_level_filename : string) (act : action)
    : M (list string) :=
  filenames ← pooch_Unzip E top_level_filename act;
  inner ← unzip_nested filenames act;
  ret (filenames ++ concat inner)%list.

(** The processor as the specification words it: the [.shp] entries among
    all unzip outputs. *)
Definition recursive_unzip_as_specified (top_level_filename : string)
    (act : action) : M (list string) :=
  outputs ← all_unzip_outputs top_level_filename act;
  ret (List.filter is_shp outputs).

End UnzipOutputs.

(** ** What the orchestrator is to return, as the specification words it *)

(** All processor outputs in one flat sequence. *)
Definition flat_outputs (filenames : list pyval) : list pyval :=
  concat (map (fun v => match v with PStr s => [PStr s] | PList l => l end)
              filenames).

(** The single element of the flat sequence, or the sequence. *)
Definition unwrap_flat (filenames : list pyval) : pyval :=
  unwrap_single (flat_outputs filenames).

(** ** Where an outline lands in the cache *)

Definition outline_cache_path (E : collaborators) (name : string) : string :=
  pooch_os_cache E "icepack" +:+ "/" +:+ name +:+ ".geojson".

(** ** The region-validation error of the glacier inventory *)

Definition rgi_region_error (name : string) : exn :=
  ValueError ("`" +:+ name +:+ "` not a valid RGI region!").

(** ** Collaborators to run the module against *)

Module Stub.

Definition cache : string := "/home/user/.cache/icepack".

Definition top_zip : string := cache +:+ "/RGI2000-v7.0-G-global.zip".
Definition top_dir : string := top_zip +:+ ".unzip".
Definition region_zip : string := top_dir +:+ "/RGI2000-v7.0-G-01_alaska.zip".
Definition region_dir : string := region_zip +:+ ".unzip".

Definition put_all (paths : list string) (fs : gmap string string)
    : gmap string string :=
  foldr (fun p acc => <[p := "member"]> acc) fs paths.

(** An archive with one shapefile next to a nested archive, which holds a
    shapefile and its attribute table; anything else is no zip file. *)
Definition extract (fname : string) (act : action) (fs : gmap string string)
    : exn + (list string * gmap string string) :=
  if String.eqb fname top_zip then
    let members := [top_dir +:+ "/outline.shp"; region_zip] in
    inr (members, put_all members fs)
  else if String.eqb fname region_zip then
    let members := [region_dir +:+ "/alaska.shp"; region_dir +:+ "/alaska.dbf"] in
    inr (members, put_all members fs)
  else inl (ExternalError "BadZipFile").

Definition collection : DataCollection :=
  {| summary := <["get-data" := ["https://host/data/"] ]>
                  (<["short-name" := ["NSIDC-0770"] ]> ∅) |}.

(** A collection whose summary has no data-access entry. *)
Definition bare_collection : DataCollection :=
  {| summary := <["short-name" := ["NSIDC-0770"] ]> ∅ |}.

Definition granule : DataGranule :=
  {| data_links := ["https://host/g/a.nc"; "https://host/g/b.nc"] |}.

Definition body_of (url : string) : string := "body of " +:+ url.

(** A catalog with one collection and one granule for every search, a login
    that succeeds, no redirection, and a server that serves every URL. *)
Definition world : collaborators :=
  {| pooch_os_cache := fun _ => cache;
     earthaccess_search_datasets := fun _ => inr [collection];
     earthaccess_search_data := fun _ => inr [granule];
     earthaccess_login := inr ("user", "secret");
     requests_get_url := fun url => inr url;
     http_transfer := fun _ url => inr (body_of url);
     zip_extract := extract |}.

(** The same, with a catalog that finds nothing. *)
Definition empty_catalog : collaborators :=
  {| pooch_os_cache := fun _ => cache;
     earthaccess_search_datasets := fun _ => inr [];
     earthaccess_search_data := fun _ => inr [];
     earthaccess_login := inr ("user", "secret");
     requests_get_url := fun url => inr url;
     http_transfer := fun _ url => inr (body_of url);
     zip_extract := extract |}.

(** The same as [world], with an archive that holds one nested archive
    and nothing else. *)
Definition extract_one (fname : string) (act : action)
    (fs : gmap string string) : exn + (list string * gmap string string) :=
  if String.eqb fname top_zip then
    inr ([region_zip], put_all [region_zip] fs)
  else if String.eqb fname region_zip then
    let members := [region_dir +:+ "/alaska.shp"] in
    inr (members, put_all members fs)
  else inl (ExternalError "BadZipFile").

Definition one_region : collaborators :=
  {| pooch_os_cache := fun _ => cache;
     earthaccess_search_datasets := fun _ => inr [collection];
     earthaccess_search_data := fun _ => inr [granule];
     earthaccess_login := inr ("user", "secret");
     requests_get_url := fun url => inr url;
     http_transfer := fun _ url => inr (body_of url);
     zip_extract := extract_one |}.

Definition search : gmap string string := <["short_name" := "NSIDC-0593"]> ∅.

Definition kw_metadata : gmap string kwarg :=
  <["extra" := KwStr "extra/"]> (<["filename" := KwStr "f.tif"]> ∅).

End Stub.

(** ** The fetchers of the single data sets *)

Section Fetchers.

Context (E : collaborators).

Definition measures_antarctica_search : gmap string string :=
  <["short_name" := "NSIDC-0754"]> ∅.

Definition fetch_measures_antarctica : M pyval :=
  _fetch_nsidc E measures_antarctica_search ∅.

Definition measures_greenland_search : gmap string string :=
  <["short_name" := "NSIDC-0478"]> (<["granule_name" := "*200_2015_2016*"]> ∅).

Definition fetch_measures_greenland : M pyval :=
  let search := measures_greenland_search in
  _fetch_nsidc E search ∅.

Definition bedmachine_antarctica_search : gmap string string :=
  <["short_name" := "NSIDC-0756"]> ∅.

Definition fetch_bedmachine_antarctica : M pyval :=
  _fetch_nsidc E bedmachine_antarctica_search ∅.

Definition bedmachine_greenland_search : gmap string string :=
  <["short_name" := "IDBMG4"]>
    (<["version" := "6"]> (<["granule_name" := "*v*.nc"]> ∅)).

Definition fetch_bedmachine_greenland : M pyval :=
  let search := bedmachine_greenland_search in
  _fetch_nsidc E search ∅.

Definition mosaic_of_antarctica_search : gmap string string :=
  <["short_name" := "NSIDC-0593"]> (<["version" := "2"]> ∅).

(** [pooch.Decompress(name=...)] is the library's; the fetcher takes it as it
    comes, a processor for each name of the decompressed file. *)
Definition fetch_mosaic_of_antarctica
    (pooch_Decompress : string -> string -> action -> M pyval) : M pyval :=
  let search := mosaic_of_antarctica_search in
  let filename := "moa750_2009_hp1_v02.0.tif" in
  let extra := "geotiff/" in
  let processor := KwProc (pooch_Decompress filename) in
  let kw := <["filename" := KwStr (filename +:+ ".gz")]>
              (<["extra" := KwStr extra]>
                 (<["processor" := processor]> ∅)) in
  _fetch_nsidc E search kw.

Definition mosaic_of_greenland_search : gmap string string :=
  <["short_name" := "NSIDC-0547"]>
    (<["granule_name" := "mog100_2015_hp1*.tif"]> ∅).

Definition fetch_mosaic_of_greenland : M pyval :=
  let search := mosaic_of_greenland_search in
  _fetch_nsidc E search ∅.

End Fetchers.

(** ** More readings of a run *)

Definition is_login (e : event) : bool :=
  match e with EvLogin => true | _ => false end.

Definition is_unzip (e : event) : bool :=
  match e with EvUnzip _ => true | _ => false end.

(** A query of the catalog, for collections or for granules. *)
Definition is_catalog_query (e : event) : bool :=
  is_search_datasets e || is_search_data e.

(** What a download through [EarthdataDownloader] is made of. *)
Definition is_transfer_step (e : event) : bool :=
  match e with
  | EvLogin | EvHttpGet _ | EvDownload _ _ => true
  | _ => false
  end.

(** The place of a URL's file in the cache: [_fetch_nsidc] names it after
    the last component of the URL. *)
Definition cache_path (E : collaborators) (url : string) : string :=
  pooch_os_cache E "icepack" +:+ "/" +:+ pathlib.name url.

(** What [pooch.retrieve] does with the file once it is there. *)
Definition apply_processor (processor : option kwarg) (full_path : string)
    (act : action) : M pyval :=
  match processor with
  | None => ret (PStr full_path)
  | Some (KwProc p) => p full_path act
  | Some (KwStr _) => raise TypeError
  end.

(** The list comprehension of [_fetch_nsidc], for given URLs. *)
Definition retrieve_all (E : collaborators) (processor : option kwarg)
    (urls : list string) : M (list pyval) :=
  py_listcomp
    (fun url => pooch_retrieve url (pathlib.name url)
                  (pooch_os_cache E "icepack") (EarthdataDownloader E)
                  processor)
    urls.

(** The paths that a returned value holds, lists within lists included. *)
Fixpoint leaves (v : pyval) : list string :=
  match v with
  | PStr s => [s]
  | PList l => flat_map leaves l
  end.

(** A last component that names a file: the empty name is the directory
    itself and [..] its parent, where [pooch.retrieve] has nothing to
    download into. *)
Definition names_a_file (fname : string) : bool :=
  negb (String.eqb fname EmptyString) && negb (String.eqb fname "..").

(** A string without a slash. *)
Fixpoint no_slash (s : string) : bool :=
  match s with
  | EmptyString => true
  | String c s' => negb (Ascii.eqb c "/") && no_slash s'
  end.

(** A string without a dot. *)
Fixpoint no_dot (s : string) : bool :=
  match s with
  | EmptyString => true
  | String c s' => negb (Ascii.eqb c ".") && no_dot s'
  end.

(** More collaborators to run the module against. *)
Module Stub2.

(** A catalog whose one collection declares no data-access URL. *)
Definition bare_catalog : collaborators :=
  {| pooch_os_cache := fun _ => Stub.cache;
     earthaccess_search_datasets := fun _ => inr [Stub.bare_collection];
     earthaccess_search_data := fun _ => inr [Stub.granule];
     earthaccess_login := inr ("user", "secret");
     requests_get_url := fun url => inr url;
     http_transfer := fun _ url => inr (Stub.body_of url);
     zip_extract := Stub.extract |}.

(** A granule without links. *)
Definition linkless_catalog : collaborators :=
  {| pooch_os_cache := fun _ => Stub.cache;
     earthaccess_search_datasets := fun _ => inr [Stub.collection];
     earthaccess_search_data := fun _ => inr [ {| data_links := [] |} ];
     earthaccess_login := inr ("user", "secret");
     requests_get_url := fun url => inr url;
     http_transfer := fun _ url => inr (Stub.body_of url);
     zip_extract := Stub.extract |}.

(** Credentials that are refused. *)
Definition no_login : collaborators :=
  {| pooch_os_cache := fun _ => Stub.cache;
     earthaccess_search_datasets := fun _ => inr [Stub.collection];
     earthaccess_search_data := fun _ => inr [Stub.granule];
     earthaccess_login := inl (ExternalError "LoginAttemptFailure");
     requests_get_url := fun url => inr url;
     http_transfer := fun _ url => inr (Stub.body_of url);
     zip_extract := Stub.extract |}.

(** A server that is down. *)
Definition offline : collaborators :=
  {| pooch_os_cache := fun _ => Stub.cache;
     earthaccess_search_datasets := fun _ => inr [Stub.collection];
     earthaccess_search_data := fun _ => inr [Stub.granule];
     earthaccess_login := inr ("user", "secret");
     requests_get_url := fun url => inr url;
     http_transfer := fun _ _ => inl (ExternalError "ConnectionError");
     zip_extract := Stub.extract |}.

(** A granule with the same file on two hosts. *)
Definition mirrored : collaborators :=
  {| pooch_os_cache := fun _ => Stub.cache;
     earthaccess_search_datasets := fun _ => inr [Stub.collection];
     earthaccess_search_data := fun _ =>
       inr [ {| data_links := ["https://host/g/a.nc";
                               "https://mirror/h/a.nc"] |} ];
     earthaccess_login := inr ("user", "secret");
     requests_get_url := fun url => inr url;
     http_transfer := fun _ url => inr (Stub.body_of url);
     zip_extract := Stub.extract |}.

(** An archive whose nested archive is damaged. *)
Definition extract_damaged (fname : string) (act : action)
    (fs : gmap string string) : exn + (list string * gmap string string) :=
  if String.eqb fname Stub.top_zip then
    let members := [Stub.top_dir +:+ "/readme.txt"; Stub.region_zip] in
    inr (members, Stub.put_all members fs)
  else inl (ExternalError "BadZipFile").

Definition damaged : collaborators :=
  {| pooch_os_cache := fun _ => Stub.cache;
     earthaccess_search_datasets := fun _ => inr [Stub.collection];
     earthaccess_search_data := fun _ => inr [Stub.granule];
     earthaccess_login := inr ("user", "secret");
     requests_get_url := fun url => inr url;
     http_transfer := fun _ url => inr (Stub.body_of url);
     zip_extract := extract_damaged |}.

(** An archive of shapefiles, with no archive inside. *)
Definition extract_flat (fname : string) (act : action)
    (fs : gmap string string) : exn + (list string * gmap string string) :=
  if String.eqb fname Stub.top_zip then
    let members := [Stub.top_dir +:+ "/alaska.shp";
                    Stub.top_dir +:+ "/alaska.dbf"] in
    inr (members, Stub.put_all members fs)
  else inl (ExternalError "BadZipFile").

Definition flat : collaborators :=
  {| pooch_os_cache := fun _ => Stub.cache;
     earthaccess_search_datasets := fun _ => inr [Stub.collection];
     earthaccess_search_data := fun _ => inr [Stub.granule];
     earthaccess_login := inr ("user", "secret");
     requests_get_url := fun url => inr url;
     http_transfer := fun _ url => inr (Stub.body_of url);
     zip_extract := extract_flat |}.

(** A decompressor that writes the named file next to the compressed one. *)
Definition decompress (name fname : string) (act : action) : M pyval :=
  write_file (Stub.cache +:+ "/" +:+ name) "decompressed";;
  ret (PStr (Stub.cache +:+ "/" +:+ name)).

End Stub2.

(** The fetchers that pass a search and nothing else, each with its search. *)
Definition plain_fetchers (E : collaborators)
    : list (M pyval * gmap string string) :=
  [ (fetch_measures_antarctica E, measures_antarctica_search);
    (fetch_measures_greenland E, measures_greenland_search);
    (fetch_bedmachine_antarctica E, bedmachine_antarctica_search);
    (fetch_bedmachine_greenland E, bedmachine_greenland_search);
    (fetch_mosaic_of_greenland E, mosaic_of_greenland_search) ].

(** * Properties *)

(** ** The monad *)

Lemma outcome_eta {A} (o : outcome A) :
  Outcome (value o) (disk o) (events o) = o.
Proof. by destruct o. Qed.

Lemma bind_inr {A B} (m : M A) (k : A -> M B) fs a :
  value (m fs) = inr a ->
  (m ≫= k) fs =
  Outcome (value (k a (disk (m fs)))) (disk (k a (disk (m fs))))
          (events (m fs) ++ events (k a (disk (m fs)))).
Proof. intros Hm. unfold mbind, M_bind, bind. by rewrite Hm. Qed.

Lemma bind_inl {A B} (m : M A) (k : A -> M B) fs e :
  value (m fs) = inl e ->
  (m ≫= k) fs = Outcome (inl e) (disk (m fs)) (events (m fs)).
Proof. intros Hm. unfold mbind, M_bind, bind. by rewrite Hm. Qed.

Lemma bind_ret_l {A B} (a : A) (k : A -> M B) fs : (ret a ≫= k) fs = k a fs.
Proof. rewrite (bind_inr _ _ _ a); [|done]. simpl. apply outcome_eta. Qed.

Lemma bind_raise {A B} (e : exn) (k : A -> M B) fs :
  (raise e ≫= k) fs = raise e fs.
Proof. by rewrite (bind_inl _ _ _ e). Qed.

Lemma bind_ext {A B} (m : M A) (k k' : A -> M B) fs :
  (forall a fs', k a fs' = k' a fs') -> (m ≫= k) fs = (m ≫= k') fs.
Proof.
  intros Hk. unfold mbind, M_bind, bind.
  destruct (value (m fs)); [done|]. by rewrite Hk.
Qed.

Lemma bind_ext_l {A B} (m m' : M A) (k : A -> M B) fs :
  (forall fs', m fs' = m' fs') -> (m ≫= k) fs = (m' ≫= k) fs.
Proof. intros Hm. unfold mbind, M_bind, bind. by rewrite Hm. Qed.

Lemma bind_assoc {A B C} (m : M A) (k : A -> M B) (h : B -> M C) fs :
  ((m ≫= k) ≫= h) fs = (m ≫= (fun a => k a ≫= h)) fs.
Proof.
  unfold mbind, M_bind, bind.
  destruct (value (m fs)) as [e|a] eqn:Hm; simpl; [by rewrite ?Hm|].
  destruct (value (k a (disk (m fs)))); simpl; [done|].
  by rewrite app_assoc.
Qed.

Lemma bind_ret_r {A} (m : M A) fs : (m ≫= ret) fs = m fs.
Proof.
  unfold mbind, M_bind, bind, ret.
  destruct (m fs) as [[e|a] d evs]; cbn; [done|]. by rewrite app_nil_r.
Qed.

(** A value is returned only by a run that did not raise. *)
Lemma bind_value_inr {A B} (m : M A) (k : A -> M B) fs b :
  value ((m ≫= k) fs) = inr b ->
  exists a, value (m fs) = inr a /\ value (k a (disk (m fs))) = inr b.
Proof.
  unfold mbind, M_bind, bind.
  destruct (value (m fs)) as [e|a]; simpl; [done|]. eauto.
Qed.

(** ** C8: the glacier catalog *)

(** C8. [get_glacier_names()] is a constant of the module: every call returns
    the same eleven names in the same order, without repetition. *)
Theorem get_glacier_names_eleven_fixed :
  List.length get_glacier_names = 11 /\
  NoDup get_glacier_names /\
  (forall i : nat, get_glacier_names !! i =
     [ "amery"; "filchner-ronne"; "getz"; "helheim"; "hiawatha"; "jakobshavn";
       "larsen-2015"; "larsen-2018"; "larsen-2019"; "pine-island"; "ross" ] !! i).
Proof.
  split; [reflexivity|]. split; [|done].
  apply (bool_decide_unpack _). by vm_compute.
Qed.

(** ** C1: the recursive unzip *)

Section RecursiveUnzip.

Context (E : collaborators) (act : action).

Let body (results : list string) (filename : string) : M (list string) :=
  if String.eqb (pathlib.suffix filename) ".zip"
  then inner_filenames ← pooch_Unzip E filename act;
       ret (results ++ inner_filenames)%list
  else ret results.

(** The loop of [_recursive_unzip] appends, to what it has, the outputs of
    the zip entries of the listing, in order. *)
Lemma recursive_unzip_loop filenames : forall results fs,
  py_for filenames results body fs =
  (inner ← unzip_nested E filenames act;
   ret (results ++ concat inner)%list) fs.
Proof.
  induction filenames as [|f filenames IH]; intros results fs.
  - unfold unzip_nested. simpl. rewrite bind_ret_l. simpl.
    by rewrite app_nil_r.
  - unfold unzip_nested. cbn [py_for List.filter].
    assert (Hbody : body results f =
              if is_zip f
              then inner_filenames ← pooch_Unzip E f act;
                   ret (results ++ inner_filenames)%list
              else ret results) by reflexivity.
    rewrite Hbody. clear Hbody.
    destruct (is_zip f) eqn:Hzip.
    + cbn [py_listcomp].
      rewrite !bind_assoc. apply bind_ext. intros inner fs1.
      rewrite bind_ret_l, IH. unfold unzip_nested.
      rewrite !bind_assoc. apply bind_ext. intros inners fs2.
      rewrite !bind_ret_l. simpl. by rewrite app_assoc.
    + rewrite bind_ret_l. apply IH.
Qed.

End RecursiveUnzip.

(** C1, as amended. The recursive unzip returns exactly the [.shp] entries
    among the outputs of unzipping each top-level entry whose extension is
    [.zip] (one level, in order); the entries of the top-level extraction
    itself are not among the candidates.  The runs agree in result or
    exception, in the files left behind and in the archives opened. *)
Theorem recursive_unzip_returns_nested_shp
    (E : collaborators) (top_level_filename : string) (act : action)
    (fs : gmap string string) :
  _recursive_unzip E top_level_filename act fs =
  (outputs ← nested_unzip_outputs E top_level_filename act;
   ret (List.filter is_shp outputs)) fs.
Proof.
  unfold _recursive_unzip, nested_unzip_outputs.
  rewrite !bind_assoc. apply bind_ext. intros filenames fs1.
  rewrite (bind_ext_l _ _ _ _ (recursive_unzip_loop E act filenames [])).
  rewrite !bind_assoc. apply bind_ext. intros inner fs2.
  by rewrite !bind_ret_l.
Qed.

(** C1, as stated, fails: a shapefile that sits at the top level of the
    archive is among all unzip outputs, and is not returned. *)
Lemma recursive_unzip_misses_top_level_shp :
  value (_recursive_unzip Stub.world Stub.top_zip Download ∅) =
    inr [Stub.region_dir +:+ "/alaska.shp"] /\
  value (recursive_unzip_as_specified Stub.world Stub.top_zip Download ∅) =
    inr [Stub.top_dir +:+ "/outline.shp"; Stub.region_dir +:+ "/alaska.shp"] /\
  value (_recursive_unzip Stub.world Stub.top_zip Download ∅) <>
  value (recursive_unzip_as_specified Stub.world Stub.top_zip Download ∅).
Proof. by vm_compute. Qed.

(** ** C2: an unknown glacier name *)

Lemma existsb_eqb_elem_of (x : string) (l : list string) :
  existsb (String.eqb x) l = true <-> x ∈ l.
Proof.
  rewrite existsb_exists, list_elem_of_In. split.
  - intros (y & Hy & Heq). apply String.eqb_eq in Heq. by subst.
  - intros Hx. exists x. by rewrite String.eqb_refl.
Qed.

(** C2, what the code does. For a name outside the catalog [fetch_outline]
    touches neither the network nor the cache, and the exception it raises is
    a [NameError] for the unbound [names], raised while the message of the
    intended [ValueError] is put together. *)
Theorem fetch_outline_unknown_name
    (E : collaborators) (name : string) (commit : option string)
    (fs : gmap string string) :
  name ∉ get_glacier_names ->
  fetch_outline E name commit fs = Outcome (inl (NameError "names")) fs [].
Proof.
  intros Hname. unfold fetch_outline.
  destruct (existsb (String.eqb name) get_glacier_names) eqn:Hin.
  - by apply existsb_eqb_elem_of in Hin.
  - simpl. by rewrite (bind_inl _ _ _ (NameError "names")).
Qed.

Lemma fetch_outline_unknown_name_witness :
  ("not-a-real-glacier" ∉ get_glacier_names) /\
  fetch_outline Stub.world "not-a-real-glacier" None ∅ =
    Outcome (inl (NameError "names")) ∅ [].
Proof.
  assert (H : "not-a-real-glacier" ∉ get_glacier_names)
    by (apply (bool_decide_unpack _); vm_compute; exact I).
  split; [exact H|].
  exact (fetch_outline_unknown_name Stub.world "not-a-real-glacier" None ∅ H).
Defined.

(** ** C3, C6, C7: resolving the URLs *)

Lemma append_assoc (a b c : string) : (a +:+ b) +:+ c = a +:+ b +:+ c.
Proof.
  induction a as [|x a IH]; [done|].
  change (String x ((a +:+ b) +:+ c) = String x (a +:+ b +:+ c)).
  by rewrite IH.
Qed.

Lemma emit_bind {B} (e : event) (k : unit -> M B) fs :
  (emit e ≫= k) fs =
  Outcome (value (k tt fs)) (disk (k tt fs)) (e :: events (k tt fs)).
Proof. by rewrite (bind_inr _ _ _ tt). Qed.

(** The granule strategy is one query for granules. *)
Lemma granule_strategy_run
    (E : collaborators) (search : gmap string string)
    (fs : gmap string string) :
  granule_strategy E search fs =
  Outcome (granule_links E search) fs [EvSearchData search].
Proof.
  unfold granule_strategy, granule_links. rewrite emit_bind.
  destruct (earthaccess_search_data E search) as [e|[|first rest]];
    cbn [answer]; rewrite ?bind_raise, ?bind_ret_l; cbn [py_index0];
    by rewrite ?bind_raise, ?bind_ret_l.
Qed.

(** The metadata strategy stops at the first keyword that is missing ... *)
Lemma metadata_strategy_missing_keyword
    (E : collaborators) (search : gmap string string)
    (kwargs : gmap string kwarg) (fs : gmap string string) :
  ~ (supplied kwargs "extra" /\ supplied kwargs "filename") ->
  exists key, metadata_strategy E search kwargs fs =
              Outcome (inl (KeyError key)) fs [].
Proof.
  unfold supplied, metadata_strategy, py_getitem. intros Hmissing.
  destruct (kwargs !! "extra") as [extra|].
  - destruct (kwargs !! "filename") as [filename|].
    + destruct Hmissing. eauto.
    + exists "filename". by rewrite bind_ret_l, bind_raise.
  - exists "extra". by rewrite bind_raise.
Qed.

(** ... and is one query for collections when both are there. *)
Lemma metadata_strategy_run
    (E : collaborators) (search : gmap string string)
    (kwargs : gmap string kwarg) (fs : gmap string string)
    (extra filename : kwarg) :
  kwargs !! "extra" = Some extra ->
  kwargs !! "filename" = Some filename ->
  metadata_strategy E search kwargs fs =
  Outcome (metadata_url E search extra filename) fs [EvSearchDatasets search].
Proof.
  intros Hextra Hfilename.
  unfold metadata_strategy, metadata_url, py_getitem.
  rewrite Hextra, Hfilename, !bind_ret_l, emit_bind.
  destruct (earthaccess_search_datasets E search) as [e|[|first rest]];
    cbn [answer]; rewrite ?bind_raise, ?bind_ret_l; cbn [py_index0];
    rewrite ?bind_raise, ?bind_ret_l; [done..|].
  destruct (summary first !! "get-data") as [[|base others]|];
    rewrite ?bind_raise, ?bind_ret_l; cbn [py_index0];
    rewrite ?bind_raise, ?bind_ret_l; [done| |done].
  destruct extra as [e|p], filename as [f|q]; cbn [py_add];
    rewrite ?bind_raise, ?bind_ret_l; cbn [py_add];
    by rewrite ?bind_raise, ?bind_ret_l.
Qed.

(** The resolver, run: with a keyword missing, the granule strategy alone;
    with both, the metadata strategy, and the granule strategy after it if it
    ran into a [KeyError]. *)
Lemma resolver_run
    (E : collaborators) (search : gmap string string)
    (kwargs : gmap string kwarg) (fs : gmap string string) :
  _fetch_nsidc_urls E search kwargs fs =
  match kwargs !! "extra", kwargs !! "filename" with
  | Some extra, Some filename =>
      match metadata_url E search extra filename with
      | inl (KeyError _) =>
          Outcome (granule_links E search) fs
                  [EvSearchDatasets search; EvSearchData search]
      | v => Outcome v fs [EvSearchDatasets search]
      end
  | _, _ => Outcome (granule_links E search) fs [EvSearchData search]
  end.
Proof.
  unfold _fetch_nsidc_urls, try_except_KeyError.
  destruct (kwargs !! "extra") as [extra|] eqn:Hextra;
    [destruct (kwargs !! "filename") as [filename|] eqn:Hfilename|].
  - rewrite (metadata_strategy_run _ _ _ _ extra filename) by done.
    cbn [value disk events]. rewrite granule_strategy_run.
    by destruct (metadata_url E search extra filename) as [[]|].
  - destruct (metadata_strategy_missing_keyword E search kwargs fs)
      as [key ->]; [unfold supplied; rewrite Hfilename; by intros [_ [? ?]]|].
    cbn [value disk events]. by rewrite granule_strategy_run.
  - destruct (metadata_strategy_missing_keyword E search kwargs fs)
      as [key ->]; [unfold supplied; rewrite Hextra; by intros [[? ?] _]|].
    cbn [value disk events]. by rewrite granule_strategy_run.
Qed.

(** C3, as amended. Which strategy resolves the URLs.  With the path
    fragment [extra] or the [filename] override missing, the resolver's run
    is the granule strategy's run, and nothing besides.  With both supplied
    it starts with the metadata strategy, whose first outward call is the
    query for collections; the resolver's run is then the metadata strategy's
    run, unless that one raised a [KeyError]: then the granule strategy runs
    after it, and the URLs or the exception of the granule strategy are the
    resolver's. *)
Theorem resolver_strategy_is_structural
    (E : collaborators) (search : gmap string string)
    (kwargs : gmap string kwarg) (fs : gmap string string) :
  let r := _fetch_nsidc_urls E search kwargs fs in
  let metadata := metadata_strategy E search kwargs fs in
  let granule := granule_strategy E search fs in
  (~ (supplied kwargs "extra" /\ supplied kwargs "filename") ->
     r = granule) /\
  (supplied kwargs "extra" /\ supplied kwargs "filename" ->
     head (events r) = Some (EvSearchDatasets search) /\
     ((forall key, value metadata <> inl (KeyError key)) -> r = metadata) /\
     (forall key, value metadata = inl (KeyError key) ->
        r = Outcome (value granule) (disk granule)
                    (events metadata ++ events granule))).
Proof.
  cbn zeta. rewrite resolver_run, granule_strategy_run. unfold supplied.
  destruct (kwargs !! "extra") as [extra|] eqn:Hextra;
    [destruct (kwargs !! "filename") as [filename|] eqn:Hfilename|].
  - split; [intros Hmissing; destruct Hmissing; eauto|]. intros _.
    rewrite (metadata_strategy_run _ _ _ _ extra filename) by done.
    cbn [value disk events].
    destruct (metadata_url E search extra filename) as [[]|] eqn:Hurl;
      (split; [done|]); split; try done;
      intros Hnot; by destruct (Hnot key).
  - split; [done|]. by intros [_ [? ?]].
  - split; [done|]. by intros [[? ?] _].
Qed.

Lemma resolver_strategy_is_structural_witness :
  (supplied Stub.kw_metadata "extra" /\ supplied Stub.kw_metadata "filename") /\
  _fetch_nsidc_urls Stub.world Stub.search Stub.kw_metadata ∅ =
    metadata_strategy Stub.world Stub.search Stub.kw_metadata ∅ /\
  ~ (supplied (∅ : gmap string kwarg) "extra" /\
     supplied (∅ : gmap string kwarg) "filename") /\
  _fetch_nsidc_urls Stub.world Stub.search ∅ ∅ =
    granule_strategy Stub.world Stub.search ∅.
Proof.
  assert (Hboth : supplied Stub.kw_metadata "extra" /\
                  supplied Stub.kw_metadata "filename")
    by (split; eexists; reflexivity).
  assert (Hnone : ~ (supplied (∅ : gmap string kwarg) "extra" /\
                     supplied (∅ : gmap string kwarg) "filename"))
    by (intros [[? H] _]; discriminate H).
  assert (Hquiet : forall key,
            value (metadata_strategy Stub.world Stub.search
                     Stub.kw_metadata ∅) <> inl (KeyError key))
    by (intros key; vm_compute; discriminate).
  pose proof (resolver_strategy_is_structural
                Stub.world Stub.search Stub.kw_metadata ∅) as [_ Hmeta].
  pose proof (resolver_strategy_is_structural
                Stub.world Stub.search ∅ ∅) as [Hgranule _].
  split; [exact Hboth|].
  split; [exact (proj1 (proj2 (Hmeta Hboth)) Hquiet)|].
  split; [exact Hnone|]. exact (Hgranule Hnone).
Defined.

(** C3, as stated, fails: both keywords are supplied, and the URLs are the
    granule strategy's.  The first collection declares no data-access entry,
    the metadata strategy raises [KeyError], and [except KeyError] takes that
    for a missing keyword. *)
Lemma resolver_both_keywords_granule_links :
  (supplied Stub.kw_metadata "extra" /\ supplied Stub.kw_metadata "filename") /\
  value (metadata_strategy Stub2.bare_catalog Stub.search Stub.kw_metadata ∅)
    = inl (KeyError "get-data") /\
  value (granule_strategy Stub2.bare_catalog Stub.search ∅)
    = inr ["https://host/g/a.nc"; "https://host/g/b.nc"] /\
  _fetch_nsidc_urls Stub2.bare_catalog Stub.search Stub.kw_metadata ∅ =
    Outcome (inr ["https://host/g/a.nc"; "https://host/g/b.nc"]) ∅
            [EvSearchDatasets Stub.search; EvSearchData Stub.search].
Proof.
  split; [split; eexists; reflexivity|]. by vm_compute.
Qed.

(** The selection rests on [except KeyError]: when both keywords are supplied
    and the metadata strategy itself runs into a [KeyError] (here a collection
    whose summary has no ["get-data"] entry), the resolver goes on to query
    granules and returns their links. *)
Lemma resolver_falls_back_on_KeyError
    (E : collaborators) (search : gmap string string)
    (kwargs : gmap string kwarg) (fs : gmap string string)
    (extra filename : kwarg) (first : DataCollection)
    (rest : list DataCollection) :
  kwargs !! "extra" = Some extra ->
  kwargs !! "filename" = Some filename ->
  earthaccess_search_datasets E search = inr (first :: rest) ->
  summary first !! "get-data" = None ->
  _fetch_nsidc_urls E search kwargs fs =
  Outcome (granule_links E search) fs
          [EvSearchDatasets search; EvSearchData search].
Proof.
  intros Hextra Hfilename Hdatasets Hsummary.
  rewrite resolver_run, Hextra, Hfilename. unfold metadata_url.
  by rewrite Hdatasets, Hsummary.
Qed.

(** C6. Under the metadata strategy: when the catalog returns at least one
    collection and the first one declares at least one data-access URL, the
    resolver produces exactly one URL, the first such base URL followed by the
    path fragment and the filename override, after one query for collections
    and nothing else. *)
Theorem metadata_strategy_builds_one_url
    (E : collaborators) (search : gmap string string)
    (kwargs : gmap string kwarg) (fs : gmap string string)
    (extra filename : string) (first : DataCollection)
    (rest : list DataCollection) (base : string) (others : list string) :
  kwargs !! "extra" = Some (KwStr extra) ->
  kwargs !! "filename" = Some (KwStr filename) ->
  earthaccess_search_datasets E search = inr (first :: rest) ->
  summary first !! "get-data" = Some (base :: others) ->
  _fetch_nsidc_urls E search kwargs fs =
  Outcome (inr [base +:+ extra +:+ filename]) fs [EvSearchDatasets search].
Proof.
  intros Hextra Hfilename Hdatasets Hsummary.
  rewrite resolver_run, Hextra, Hfilename. unfold metadata_url.
  rewrite Hdatasets, Hsummary. by rewrite append_assoc.
Qed.

Lemma metadata_strategy_builds_one_url_witness :
  _fetch_nsidc_urls Stub.world Stub.search Stub.kw_metadata ∅ =
  Outcome (inr ["https://host/data/extra/f.tif"]) ∅
          [EvSearchDatasets Stub.search].
Proof.
  exact (metadata_strategy_builds_one_url Stub.world Stub.search
           Stub.kw_metadata ∅ "extra/" "f.tif" Stub.collection []
           "https://host/data/" []
           eq_refl eq_refl eq_refl eq_refl).
Defined.

Lemma resolver_empty_result
    (E : collaborators) (search : gmap string string)
    (kwargs : gmap string kwarg) (fs : gmap string string) :
  let r := _fetch_nsidc_urls E search kwargs fs in
  empty_query_result E search (events r) ->
  value r = inl IndexError /\ disk r = fs /\
  existsb is_download (events r) = false.
Proof.
  cbn zeta. rewrite resolver_run.
  unfold empty_query_result, metadata_url, granule_links.
  destruct (kwargs !! "extra") as [extra|];
    [destruct (kwargs !! "filename") as [filename|]|].
  2-3: by (cbn; intros [[? _]|[_ ->]]).
  destruct (earthaccess_search_datasets E search) as [e|[|first rest]].
  - destruct e; cbn; intros [[_ ?]|[? Hdata]]; try done. by rewrite Hdata.
  - cbn. by intros _.
  - destruct (summary first !! "get-data") as [[|base others]|].
    + cbn. by intros [[_ ?]|[? _]].
    + destruct extra, filename; cbn; by intros [[_ ?]|[? _]].
    + cbn. intros [[_ ?]|[_ ->]]; done.
Qed.

(** C7. Whichever strategy runs, a catalog query that returns zero records
    makes [_fetch_nsidc] raise [IndexError]: nothing is returned, nothing is
    downloaded, the cache is left as it was. *)
Theorem empty_catalog_answer_raises_IndexError
    (E : collaborators) (search : gmap string string)
    (kwargs : gmap string kwarg) (fs : gmap string string) :
  let r := _fetch_nsidc_urls E search (delete "processor" kwargs) fs in
  empty_query_result E search (events r) ->
  _fetch_nsidc E search kwargs fs = Outcome (inl IndexError) fs (events r) /\
  existsb is_download (events r) = false.
Proof.
  intros r Hempty.
  destruct (resolver_empty_result E search (delete "processor" kwargs) fs
              Hempty) as (Hvalue & Hdisk & Hdown).
  fold r in Hvalue, Hdisk, Hdown. split; [|done].
  unfold _fetch_nsidc, _fetch_nsidc_filenames.
  rewrite bind_assoc, (bind_inl _ _ _ IndexError) by done.
  fold r. by rewrite Hdisk.
Qed.

Lemma empty_catalog_answer_raises_IndexError_witness :
  (empty_query_result Stub.empty_catalog Stub.search
     (events (_fetch_nsidc_urls Stub.empty_catalog Stub.search
                (delete "processor" Stub.kw_metadata) ∅)) /\
   _fetch_nsidc Stub.empty_catalog Stub.search Stub.kw_metadata ∅ =
     Outcome (inl IndexError) ∅ [EvSearchDatasets Stub.search]) /\
  (empty_query_result Stub.empty_catalog Stub.search
     (events (_fetch_nsidc_urls Stub.empty_catalog Stub.search
                (delete "processor" ∅) ∅)) /\
   _fetch_nsidc Stub.empty_catalog Stub.search ∅ ∅ =
     Outcome (inl IndexError) ∅ [EvSearchData Stub.search]).
Proof.
  assert (Hmeta : empty_query_result Stub.empty_catalog Stub.search
     (events (_fetch_nsidc_urls Stub.empty_catalog Stub.search
                (delete "processor" Stub.kw_metadata) ∅)))
    by (left; split; reflexivity).
  assert (Hgran : empty_query_result Stub.empty_catalog Stub.search
     (events (_fetch_nsidc_urls Stub.empty_catalog Stub.search
                (delete "processor" ∅) ∅)))
    by (right; split; reflexivity).
  split.
  - split; [exact Hmeta|].
    exact (proj1 (empty_catalog_answer_raises_IndexError
                    Stub.empty_catalog Stub.search Stub.kw_metadata ∅ Hmeta)).
  - split; [exact Hgran|].
    exact (proj1 (empty_catalog_answer_raises_IndexError
                    Stub.empty_catalog Stub.search ∅ ∅ Hgran)).
Defined.

(** ** C5: what the orchestrator returns *)

Lemma py_listcomp_Forall2 {A B} (f : A -> M B) (l : list A) :
  forall fs ys,
  value (py_listcomp f l fs) = inr ys ->
  Forall2 (fun x y => exists fs', value (f x fs') = inr y) l ys.
Proof.
  induction l as [|x l IH]; intros fs ys Hrun.
  - cbn in Hrun. injection Hrun as <-. constructor.
  - cbn [py_listcomp] in Hrun.
    apply bind_value_inr in Hrun as (y & Hy & Hrun).
    apply bind_value_inr in Hrun as (ys' & Hys' & Hret).
    cbn in Hret. injection Hret as <-.
    constructor; [by exists fs|]. by eapply IH.
Qed.

Lemma unwrap_single_cases (seq : list pyval) :
  unwrap_single seq = match seq with [f] => f | _ => PList seq end.
Proof. by destruct seq as [|f [|g seq]]. Qed.

Lemma pooch_retrieve_no_processor
    (url fname path : string) (downloader : string -> string -> M unit)
    (fs : gmap string string) (v : pyval) :
  value (pooch_retrieve url fname path downloader None fs) = inr v ->
  v = PStr (path +:+ "/" +:+ fname).
Proof.
  unfold pooch_retrieve. intros Hrun.
  apply bind_value_inr in Hrun as (present & _ & Hrun).
  apply bind_value_inr in Hrun as (_ & _ & Hret).
  cbn in Hret. by injection Hret as <-.
Qed.

Lemma flat_outputs_paths (paths : list string) :
  flat_outputs (map PStr paths) = map PStr paths.
Proof.
  unfold flat_outputs. induction paths as [|p paths IH]; [done|].
  cbn. f_equal. apply IH.
Qed.

(** C5, as amended. The orchestrator keeps one entry per resolved URL, in
    order: what [pooch.retrieve] returned for that URL, which is the
    processor's return value as it is (a list stays a list) or the cached
    file's path when there is no processor.  It returns that entry itself when
    exactly one URL was resolved, and the list of entries otherwise.  With no
    processor the entries are paths, and the result is the one of the flat
    sequence. *)
Theorem orchestrator_returns_one_entry_per_url
    (E : collaborators) (search : gmap string string)
    (kwargs : gmap string kwarg) (fs : gmap string string) (v : pyval) :
  value (_fetch_nsidc E search kwargs fs) = inr v ->
  exists (urls : list string) (filenames : list pyval),
    value (_fetch_nsidc_urls E search (delete "processor" kwargs) fs)
      = inr urls /\
    Forall2
      (fun url f => exists fs',
         value (pooch_retrieve url (pathlib.name url)
                  (pooch_os_cache E "icepack") (EarthdataDownloader E)
                  (kwargs !! "processor") fs') = inr f)
      urls filenames /\
    v = match filenames with [f] => f | _ => PList filenames end /\
    (kwargs !! "processor" = None ->
       filenames =
         map (fun url => PStr (pooch_os_cache E "icepack" +:+ "/"
                               +:+ pathlib.name url)) urls /\
       v = unwrap_flat filenames).
Proof.
  intros Hrun. unfold _fetch_nsidc in Hrun.
  apply bind_value_inr in Hrun as (filenames & Hfilenames & Hret).
  cbn in Hret. injection Hret as <-.
  unfold _fetch_nsidc_filenames in Hfilenames.
  apply bind_value_inr in Hfilenames as (urls & Hurls & Hcomp).
  apply py_listcomp_Forall2 in Hcomp.
  exists urls, filenames. split; [done|]. split; [done|].
  split; [apply unwrap_single_cases|].
  intros Hnone. rewrite Hnone in Hcomp.
  assert (Hpaths : filenames =
            map (fun url => PStr (pooch_os_cache E "icepack" +:+ "/"
                                  +:+ pathlib.name url)) urls).
  { clear Hurls. induction Hcomp as [|url f urls filenames [fs' Hf] _ IH];
      [done|].
    cbn. f_equal; [|done]. by eapply pooch_retrieve_no_processor. }
  split; [done|].
  unfold unwrap_flat. rewrite Hpaths, <- (map_map _ PStr).
  by rewrite flat_outputs_paths.
Qed.

Lemma orchestrator_returns_one_entry_per_url_witness :
  value (_fetch_nsidc Stub.world Stub.search ∅ ∅) =
    inr (PList [PStr (Stub.cache +:+ "/a.nc"); PStr (Stub.cache +:+ "/b.nc")]) /\
  exists (urls : list string) (filenames : list pyval),
    value (_fetch_nsidc_urls Stub.world Stub.search (delete "processor" ∅) ∅)
      = inr urls /\
    Forall2
      (fun url f => exists fs',
         value (pooch_retrieve url (pathlib.name url)
                  (pooch_os_cache Stub.world "icepack")
                  (EarthdataDownloader Stub.world)
                  ((∅ : gmap string kwarg) !! "processor") fs') = inr f)
      urls filenames /\
    PList [PStr (Stub.cache +:+ "/a.nc"); PStr (Stub.cache +:+ "/b.nc")] =
      match filenames with [f] => f | _ => PList filenames end /\
    ((∅ : gmap string kwarg) !! "processor" = None ->
       filenames =
         map (fun url => PStr (pooch_os_cache Stub.world "icepack" +:+ "/"
                               +:+ pathlib.name url)) urls /\
       PList [PStr (Stub.cache +:+ "/a.nc"); PStr (Stub.cache +:+ "/b.nc")] =
         unwrap_flat filenames).
Proof.
  assert (Hrun : value (_fetch_nsidc Stub.world Stub.search ∅ ∅) =
    inr (PList [PStr (Stub.cache +:+ "/a.nc"); PStr (Stub.cache +:+ "/b.nc")]))
    by (vm_compute; reflexivity).
  split; [exact Hrun|].
  exact (orchestrator_returns_one_entry_per_url
           Stub.world Stub.search ∅ ∅ _ Hrun).
Defined.

(** C5, as stated, fails: with the recursive unzip as processor and an
    archive that yields one shapefile, the flat sequence of outputs has
    exactly one element, and the orchestrator returns a list holding it, not
    the element. *)
Lemma orchestrator_keeps_single_output_in_list :
  let E := Stub.one_region in
  let shp := PStr (Stub.region_dir +:+ "/alaska.shp") in
  value (_fetch_nsidc_filenames E rgi_search (rgi_kw E) ∅) = inr [PList [shp]] /\
  flat_outputs [PList [shp]] = [shp] /\
  unwrap_flat [PList [shp]] = shp /\
  value (_fetch_nsidc E rgi_search (rgi_kw E) ∅) = inr (PList [shp]) /\
  PList [shp] <> unwrap_flat [PList [shp]].
Proof. by vm_compute. Qed.

(** ** C4, C9: outlines, their URLs and their place in the cache *)

Lemma length_append (a b : string) :
  String.length (a +:+ b) = String.length a + String.length b.
Proof.
  induction a as [|x a IH]; [done|].
  change (S (String.length (a +:+ b)) = S (String.length a + String.length b)).
  by rewrite IH.
Qed.

Lemma append_inj_r (a b t : string) : a +:+ t = b +:+ t -> a = b.
Proof.
  revert b. induction a as [|c a IH]; intros [|d b] Heq.
  - done.
  - apply (f_equal String.length) in Heq.
    rewrite !length_append in Heq. cbn in Heq. lia.
  - apply (f_equal String.length) in Heq.
    rewrite !length_append in Heq. cbn in Heq. lia.
  - change (String c (a +:+ t) = String d (b +:+ t)) in Heq.
    injection Heq as -> Heq. f_equal. by apply IH.
Qed.

Lemma commit_or_default_nonempty (c : string) :
  c <> EmptyString -> commit_or_default (Some c) = c.
Proof. by destruct c. Qed.

(** Distinct commits that are not empty give distinct URLs. *)
Lemma outline_url_inj (name A B : string) :
  A <> EmptyString -> B <> EmptyString ->
  outline_url name (Some A) = outline_url name (Some B) -> A = B.
Proof.
  intros HA HB. unfold outline_url.
  rewrite !commit_or_default_nonempty by done.
  intros Heq. apply (inj (String.app _)) in Heq.
  apply (inj (String.app _)) in Heq. by apply append_inj_r in Heq.
Qed.

Section Retrieve.

Context (E : collaborators).
Context (url fname path : string) (auth : option (string * string)).

Let full_path : string := path +:+ "/" +:+ fname.

(** A file that is in the cache is returned as it is, without a transfer. *)
Lemma retrieve_cache_hit (downloader : string -> string -> M unit) fs :
  is_Some (fs !! full_path) ->
  pooch_retrieve url fname path downloader None fs =
  Outcome (inr (PStr full_path)) fs [].
Proof.
  intros Hsome. unfold pooch_retrieve, mbind, M_bind, bind, file_exists.
  cbn [value disk events]. fold full_path.
  by rewrite (bool_decide_eq_true_2 _ Hsome).
Qed.

(** A file that is not in the cache is transferred once and written. *)
Lemma retrieve_cache_miss fs body :
  fs !! full_path = None ->
  http_transfer E auth url = inr body ->
  pooch_retrieve url fname path (HTTPDownloader E auth) None fs =
  Outcome (inr (PStr full_path)) (<[full_path := body]> fs)
          [EvDownload url full_path].
Proof.
  intros Hnone Hbody.
  unfold pooch_retrieve, HTTPDownloader, mbind, M_bind, bind, file_exists,
    emit, answer, write_file.
  cbn [value disk events]. fold full_path.
  rewrite bool_decide_eq_false_2 by (rewrite Hnone; by intros [? ?]).
  cbn [value disk events]. rewrite Hbody. done.
Qed.

(** A retrieval that returns leaves its file in the cache. *)
Lemma retrieve_leaves_file fs v :
  value (pooch_retrieve url fname path (HTTPDownloader E auth) None fs)
    = inr v ->
  v = PStr full_path /\
  is_Some (disk (pooch_retrieve url fname path (HTTPDownloader E auth)
                   None fs) !! full_path).
Proof.
  intros Hrun. split; [by eapply pooch_retrieve_no_processor|].
  destruct (fs !! full_path) as [content|] eqn:Hfile.
  - rewrite retrieve_cache_hit by (rewrite Hfile; eauto).
    cbn. rewrite Hfile. eauto.
  - destruct (http_transfer E auth url) as [e|body] eqn:Hbody.
    + exfalso. revert Hrun.
      unfold pooch_retrieve, HTTPDownloader, mbind, M_bind, bind,
        file_exists, emit, answer, write_file.
      cbn [value disk events]. fold full_path.
      rewrite bool_decide_eq_false_2 by (rewrite Hfile; by intros [? ?]).
      cbn [value disk events]. by rewrite Hbody.
    + rewrite (retrieve_cache_miss _ body) by done.
      cbn. rewrite lookup_insert_eq. eauto.
Qed.

(** A file that is not in the cache is asked for, whatever comes of it. *)
Lemma retrieve_cache_miss_events fs :
  fs !! full_path = None ->
  events (pooch_retrieve url fname path (HTTPDownloader E auth) None fs)
    = [EvDownload url full_path].
Proof.
  intros Hnone.
  destruct (http_transfer E auth url) as [e|body] eqn:Hbody.
  - unfold pooch_retrieve, HTTPDownloader, mbind, M_bind, bind,
      file_exists, emit, answer, write_file.
    cbn [value disk events]. fold full_path.
    rewrite bool_decide_eq_false_2 by (rewrite Hnone; by intros [? ?]).
    cbn [value disk events]. by rewrite Hbody.
  - by rewrite (retrieve_cache_miss _ body).
Qed.

End Retrieve.

Lemma fetch_outline_known
    (E : collaborators) (name : string) (commit : option string)
    (fs : gmap string string) :
  name ∈ get_glacier_names ->
  fetch_outline E name commit fs =
  pooch_retrieve (outline_url name commit) (name +:+ ".geojson")
    (pooch_os_cache E "icepack") (HTTPDownloader E None) None fs.
Proof.
  intros Hname. unfold fetch_outline.
  by rewrite (proj2 (existsb_eqb_elem_of _ _) Hname).
Qed.

Lemma fetch_outline_returns_known
    (E : collaborators) (name : string) (commit : option string)
    (fs : gmap string string) (p : pyval) :
  value (fetch_outline E name commit fs) = inr p -> name ∈ get_glacier_names.
Proof.
  intros Hrun. apply existsb_eqb_elem_of.
  destruct (existsb (String.eqb name) get_glacier_names) eqn:Hin; [done|].
  unfold fetch_outline in Hrun. rewrite Hin in Hrun. cbn [negb] in Hrun.
  by rewrite (bind_inl _ _ _ (NameError "names")) in Hrun.
Qed.

(** C4, as amended. A call of [fetch_outline] for a glacier of the catalog
    whose outline is not in the cache asks for exactly one download, of the
    URL built from the name and the commit of that call.  For two distinct
    commit tokens, neither of them empty, these URLs are distinct, so the two
    calls ask for different downloads (an empty token, like an absent one,
    stands for the default commit).  And a call that returned a path, made
    again with the same name and commit, returns the same path without a
    download, the file being in the cache. *)
Theorem fetch_outline_urls_and_cache_hit
    (E : collaborators) (name A B : string) :
  name ∈ get_glacier_names ->
  A <> EmptyString -> B <> EmptyString -> A <> B ->
  (forall (commit : option string) (fs : gmap string string),
     fs !! outline_cache_path E name = None ->
     events (fetch_outline E name commit fs) =
       [EvDownload (outline_url name commit) (outline_cache_path E name)]) /\
  outline_url name (Some A) <> outline_url name (Some B) /\
  (forall fs : gmap string string,
     fs !! outline_cache_path E name = None ->
     events (fetch_outline E name (Some A) fs) <>
     events (fetch_outline E name (Some B) fs)) /\
  (forall (commit : option string) (fs : gmap string string) (p : pyval),
     value (fetch_outline E name commit fs) = inr p ->
     let fs1 := disk (fetch_outline E name commit fs) in
     fetch_outline E name commit fs1 = Outcome (inr p) fs1 []).
Proof.
  intros Hname HA HB Hne.
  assert (Hasks : forall (commit : option string) (fs : gmap string string),
    fs !! outline_cache_path E name = None ->
    events (fetch_outline E name commit fs) =
      [EvDownload (outline_url name commit) (outline_cache_path E name)]).
  { intros commit fs Hfile. rewrite fetch_outline_known by done.
    by apply retrieve_cache_miss_events. }
  assert (Hurls : outline_url name (Some A) <> outline_url name (Some B))
    by (intros Heq; by apply Hne, (outline_url_inj name)).
  split; [exact Hasks|]. split; [exact Hurls|]. split.
  - intros fs Hfile. rewrite !Hasks by done. intros Heq. apply Hurls.
    congruence.
  - intros commit fs p Hrun fs1. subst fs1. revert Hrun.
    rewrite !fetch_outline_known by done. intros Hrun.
    apply retrieve_leaves_file in Hrun as [-> Hfile].
    by apply retrieve_cache_hit.
Qed.

Lemma fetch_outline_urls_and_cache_hit_witness :
  events (fetch_outline Stub.world "helheim" (Some "0a1b2c") ∅) =
    [EvDownload (outline_url "helheim" (Some "0a1b2c"))
                (outline_cache_path Stub.world "helheim")] /\
  events (fetch_outline Stub.world "helheim" (Some "0a1b2c") ∅) <>
    events (fetch_outline Stub.world "helheim" (Some "3d4e5f") ∅) /\
  outline_url "helheim" (Some "0a1b2c") <> outline_url "helheim" (Some "3d4e5f") /\
  value (fetch_outline Stub.world "helheim" (Some "0a1b2c") ∅) =
    inr (PStr (Stub.cache +:+ "/helheim.geojson")) /\
  fetch_outline Stub.world "helheim" (Some "0a1b2c")
    (disk (fetch_outline Stub.world "helheim" (Some "0a1b2c") ∅)) =
  Outcome (inr (PStr (Stub.cache +:+ "/helheim.geojson")))
    (disk (fetch_outline Stub.world "helheim" (Some "0a1b2c") ∅)) [].
Proof.
  assert (Hname : "helheim" ∈ get_glacier_names)
    by (apply (bool_decide_unpack _); vm_compute; exact I).
  assert (Hrun : value (fetch_outline Stub.world "helheim" (Some "0a1b2c") ∅) =
                 inr (PStr (Stub.cache +:+ "/helheim.geojson")))
    by (vm_compute; reflexivity).
  destruct (fetch_outline_urls_and_cache_hit Stub.world "helheim"
              "0a1b2c" "3d4e5f" Hname
              ltac:(discriminate) ltac:(discriminate) ltac:(discriminate))
    as (Hasks & Hurls & Hdiffer & Hagain).
  split; [exact (Hasks (Some "0a1b2c") ∅ eq_refl)|].
  split; [exact (Hdiffer ∅ eq_refl)|].
  split; [exact Hurls|]. split; [exact Hrun|].
  exact (Hagain (Some "0a1b2c") ∅ _ Hrun).
Defined.

(** C4, as stated, fails: the empty token and the default commit are distinct
    tokens, and [commit or default_commit] maps both to the default commit, so
    the two calls build the same URL and ask for the same download. *)
Lemma fetch_outline_empty_commit_is_default :
  "helheim" ∈ get_glacier_names /\
  EmptyString <> default_commit /\
  outline_url "helheim" (Some EmptyString) =
  outline_url "helheim" (Some default_commit) /\
  events (fetch_outline Stub.world "helheim" (Some EmptyString) ∅) =
  events (fetch_outline Stub.world "helheim" (Some default_commit) ∅).
Proof.
  split; [apply (bool_decide_unpack _); by vm_compute|].
  split; [discriminate|]. split; reflexivity.
Qed.

(** C9. For a glacier of the catalog the outline is cached under
    [{name}.geojson] in the cache directory, whatever the commit: once a call
    for one commit has downloaded it, a call for the same name and any other
    commit returns that same path without a download, and the file there is
    still the one fetched for the first commit. *)
Theorem fetch_outline_cache_ignores_commit
    (E : collaborators) (name : string) (c1 c2 : option string)
    (fs : gmap string string) (body : string) :
  name ∈ get_glacier_names ->
  fs !! outline_cache_path E name = None ->
  http_transfer E None (outline_url name c1) = inr body ->
  let path := outline_cache_path E name in
  let fs1 := <[path := body]> fs in
  fetch_outline E name c1 fs =
    Outcome (inr (PStr path)) fs1 [EvDownload (outline_url name c1) path] /\
  fetch_outline E name c2 fs1 = Outcome (inr (PStr path)) fs1 [] /\
  fs1 !! path = Some body.
Proof.
  intros Hname Hfile Hbody path fs1. subst path fs1.
  rewrite !fetch_outline_known by done. split; [|split].
  - by apply retrieve_cache_miss.
  - apply retrieve_cache_hit. unfold outline_cache_path.
    rewrite lookup_insert_eq. eauto.
  - apply lookup_insert_eq.
Qed.

Lemma fetch_outline_cache_ignores_commit_witness :
  let path := Stub.cache +:+ "/helheim.geojson" in
  let url1 := outline_url "helheim" (Some "0a1b2c") in
  let fs1 := <[path := Stub.body_of url1]> (∅ : gmap string string) in
  fetch_outline Stub.world "helheim" (Some "0a1b2c") ∅ =
    Outcome (inr (PStr path)) fs1 [EvDownload url1 path] /\
  fetch_outline Stub.world "helheim" (Some "3d4e5f") fs1 =
    Outcome (inr (PStr path)) fs1 [] /\
  fs1 !! path = Some (Stub.body_of url1).
Proof.
  assert (Hname : "helheim" ∈ get_glacier_names)
    by (apply (bool_decide_unpack _); vm_compute; exact I).
  exact (fetch_outline_cache_ignores_commit Stub.world "helheim"
           (Some "0a1b2c") (Some "3d4e5f") ∅
           (Stub.body_of (outline_url "helheim" (Some "0a1b2c")))
           Hname eq_refl eq_refl).
Defined.

(** ** C10: the glacier inventory and its region filter *)

(** C10. With [name=None] the inventory fetch is the pipeline's run and
    nothing more: all processed filenames, unfiltered, no validation, no
    exception of its own.  An exception of the pipeline passes through
    whatever the name; and when the pipeline returns, the fetch raises if and
    only if a name is given and matches none of the returned filenames, the
    exception being the region [ValueError]. *)
Theorem fetch_rgi_default_is_unfiltered
    (E : collaborators) (fs : gmap string string) :
  let pipeline := _fetch_nsidc E rgi_search (rgi_kw E) fs in
  fetch_randolph_glacier_inventory E None fs = pipeline /\
  (forall (e : exn), value pipeline = inl e ->
     forall name, value (fetch_randolph_glacier_inventory E name fs) = inl e) /\
  (forall (all_filenames : pyval), value pipeline = inr all_filenames ->
     forall (name : option string) (e : exn),
     value (fetch_randolph_glacier_inventory E name fs) = inl e <->
     exists n, name = Some n /\
       List.filter (py_in n) (py_iter all_filenames) = [] /\
       e = rgi_region_error n).
Proof.
  intros pipeline. subst pipeline. split; [|split].
  - unfold fetch_randolph_glacier_inventory. apply bind_ret_r.
  - intros e Hfail name. unfold fetch_randolph_glacier_inventory.
    by rewrite (bind_inl _ _ _ e).
  - intros all_filenames Hrun name e.
    unfold fetch_randolph_glacier_inventory.
    rewrite (bind_inr _ _ _ all_filenames) by done. cbn [value].
    destruct name as [n|]; cbn.
    + destruct (List.filter (py_in n) (py_iter all_filenames))
        as [|f filenames] eqn:Hfilter; cbn.
      * split.
        -- intros [= <-]. by exists n.
        -- intros (n' & [= <-] & _ & ->). done.
      * split; [done|]. intros (n' & [= <-] & Hnil & _).
        by rewrite Hfilter in Hnil.
    + split; [done|]. by intros (n & ? & _).
Qed.

Lemma fetch_rgi_default_is_unfiltered_witness :
  let shp := PStr (Stub.region_dir +:+ "/alaska.shp") in
  value (_fetch_nsidc Stub.world rgi_search (rgi_kw Stub.world) ∅) =
    inr (PList [shp]) /\
  fetch_randolph_glacier_inventory Stub.world None ∅ =
    _fetch_nsidc Stub.world rgi_search (rgi_kw Stub.world) ∅ /\
  List.filter (py_in "andes") (py_iter (PList [shp])) = [] /\
  value (fetch_randolph_glacier_inventory Stub.world (Some "andes") ∅) =
    inl (rgi_region_error "andes").
Proof.
  assert (Hrun : value (_fetch_nsidc Stub.world rgi_search
                          (rgi_kw Stub.world) ∅) =
                 inr (PList [PStr (Stub.region_dir +:+ "/alaska.shp")]))
    by (vm_compute; reflexivity).
  assert (Hnone : List.filter (py_in "andes")
                    (py_iter (PList [PStr (Stub.region_dir +:+ "/alaska.shp")]))
                  = []) by (vm_compute; reflexivity).
  destruct (fetch_rgi_default_is_unfiltered Stub.world ∅)
    as (Hdefault & _ & Hraises).
  split; [exact Hrun|]. split; [exact Hdefault|]. split; [exact Hnone|].
  apply (Hraises _ Hrun (Some "andes") (rgi_region_error "andes")).
  exists "andes". split; [reflexivity|]. split; [exact Hnone|reflexivity].
Defined.

(** * Further properties *)

(** ** The downloaders *)

Lemma HTTPDownloader_run (E : collaborators) (auth : option (string * string))
    (url output_file : string) (fs : gmap string string) :
  HTTPDownloader E auth url output_file fs =
  match http_transfer E auth url with
  | inl e => Outcome (inl e) fs [EvDownload url output_file]
  | inr body =>
      Outcome (inr tt) (<[output_file := body]> fs) [EvDownload url output_file]
  end.
Proof.
  unfold HTTPDownloader. rewrite emit_bind.
  destruct (http_transfer E auth url) as [e|body]; cbn [answer];
    by rewrite ?bind_raise, ?bind_ret_l.
Qed.

Lemma EarthdataDownloader_run (E : collaborators) (url output_file : string)
    (fs : gmap string string) :
  EarthdataDownloader E url output_file fs =
  match earthaccess_login E with
  | inl e => Outcome (inl e) fs [EvLogin]
  | inr auth =>
      match requests_get_url E url with
      | inl e => Outcome (inl e) fs [EvLogin; EvHttpGet url]
      | inr final_url =>
          match http_transfer E (Some auth) final_url with
          | inl e =>
              Outcome (inl e) fs
                [EvLogin; EvHttpGet url; EvDownload final_url output_file]
          | inr body =>
              Outcome (inr tt) (<[output_file := body]> fs)
                [EvLogin; EvHttpGet url; EvDownload final_url output_file]
          end
      end
  end.
Proof.
  unfold EarthdataDownloader. rewrite emit_bind.
  destruct (earthaccess_login E) as [e|auth]; cbn [answer];
    rewrite ?bind_raise, ?bind_ret_l; [done|].
  rewrite emit_bind.
  destruct (requests_get_url E url) as [e|final_url]; cbn [answer];
    rewrite ?bind_raise, ?bind_ret_l; [done|].
  rewrite HTTPDownloader_run.
  by destruct (http_transfer E (Some auth) final_url).
Qed.



(** ** [pooch.retrieve] *)

Lemma then_ret {A B} (m : M A) (b : B) fs :
  (m ;; ret b) fs =
  Outcome (match value (m fs) with inl e => inl e | inr _ => inr b end)
          (disk (m fs)) (events (m fs)).
Proof.
  unfold mbind, M_bind, bind, ret.
  destruct (value (m fs)); cbn; by rewrite ?app_nil_r.
Qed.

Lemma pooch_retrieve_run (url fname path : string)
    (downloader : string -> string -> M unit) (processor : option kwarg)
    (fs : gmap string string) :
  pooch_retrieve url fname path downloader processor fs =
  if bool_decide (is_Some (fs !! (path +:+ "/" +:+ fname)))
  then apply_processor processor (path +:+ "/" +:+ fname) Fetch fs
  else (downloader url (path +:+ "/" +:+ fname);;
        apply_processor processor (path +:+ "/" +:+ fname) Download) fs.
Proof.
  unfold pooch_retrieve, apply_processor.
  rewrite (bind_inr _ _ _
             (bool_decide (is_Some (fs !! (path +:+ "/" +:+ fname)))))
    by done.
  cbn [file_exists value disk events app].
  destruct (bool_decide (is_Some (fs !! (path +:+ "/" +:+ fname)))).
  - rewrite bind_ret_l. apply outcome_eta.
  - apply outcome_eta.
Qed.

(** Without a processor, a retrieval through the Earthdata downloader keeps
    every file that is there, and reports nothing but the steps of a
    transfer. *)
Lemma earthdata_retrieve_keeps_files (E : collaborators)
    (url fname path : string) (fs : gmap string string) :
  fs ⊆ disk (pooch_retrieve url fname path (EarthdataDownloader E) None fs).
Proof.
  rewrite pooch_retrieve_run.
  destruct (bool_decide (is_Some (fs !! (path +:+ "/" +:+ fname)))) eqn:Hhit;
    [done|].
  cbn [apply_processor]. rewrite then_ret. cbn [disk].
  apply bool_decide_eq_false in Hhit.
  assert (Hnone : fs !! (path +:+ "/" +:+ fname) = None).
  { destruct (fs !! (path +:+ "/" +:+ fname)) eqn:Hf; [|done].
    destruct Hhit. eauto. }
  rewrite EarthdataDownloader_run.
  destruct (earthaccess_login E) as [e|auth]; [done|].
  destruct (requests_get_url E url) as [e|final_url]; [done|].
  destruct (http_transfer E (Some auth) final_url) as [e|body]; [done|].
  cbn. by apply insert_subseteq.
Qed.

Lemma earthdata_retrieve_events (E : collaborators)
    (url fname path : string) (fs : gmap string string) :
  forallb is_transfer_step
    (events (pooch_retrieve url fname path (EarthdataDownloader E) None fs))
  = true.
Proof.
  rewrite pooch_retrieve_run.
  destruct (bool_decide (is_Some (fs !! (path +:+ "/" +:+ fname))));
    [done|].
  cbn [apply_processor]. rewrite then_ret. cbn [events].
  rewrite EarthdataDownloader_run.
  destruct (earthaccess_login E) as [e|auth]; [done|].
  destruct (requests_get_url E url) as [e|final_url]; [done|].
  by destruct (http_transfer E (Some auth) final_url) as [e|body].
Qed.

(** ** Invariants along a computation *)

Lemma bind_disk {A B} (R : relation (gmap string string)) `{!PreOrder R}
    (m : M A) (k : A -> M B) fs :
  R fs (disk (m fs)) -> (forall a fs', R fs' (disk (k a fs'))) ->
  R fs (disk ((m ≫= k) fs)).
Proof.
  intros Hm Hk. unfold mbind, M_bind, bind.
  destruct (value (m fs)) as [e|a]; cbn [disk]; [done|].
  by etrans.
Qed.

Lemma py_listcomp_disk {A B} (R : relation (gmap string string))
    `{!PreOrder R} (f : A -> M B) (l : list A) :
  (forall x fs, R fs (disk (f x fs))) ->
  forall fs, R fs (disk (py_listcomp f l fs)).
Proof.
  intros Hf. induction l as [|x l IH]; intros fs; [done|].
  cbn [py_listcomp]. apply (bind_disk R); [done|]. intros y fs1.
  apply (bind_disk R); [done|]. by intros ys fs2.
Qed.

Lemma bind_events {A B} (P : event -> bool) (m : M A) (k : A -> M B) fs :
  forallb P (events (m fs)) = true ->
  (forall a fs', forallb P (events (k a fs')) = true) ->
  forallb P (events ((m ≫= k) fs)) = true.
Proof.
  intros Hm Hk. unfold mbind, M_bind, bind.
  destruct (value (m fs)) as [e|a]; cbn [events]; [done|].
  rewrite forallb_app, Hm. by cbn.
Qed.

Lemma py_listcomp_events {A B} (P : event -> bool) (f : A -> M B)
    (l : list A) :
  (forall x fs, forallb P (events (f x fs)) = true) ->
  forall fs, forallb P (events (py_listcomp f l fs)) = true.
Proof.
  intros Hf. induction l as [|x l IH]; intros fs; [done|].
  cbn [py_listcomp]. apply bind_events; [done|]. intros y fs1.
  apply bind_events; [done|]. by intros ys fs2.
Qed.

Lemma bind_run {A B} (m : M A) (k : A -> M B) fs a fs' evs :
  m fs = Outcome (inr a) fs' evs ->
  (m ≫= k) fs =
  Outcome (value (k a fs')) (disk (k a fs')) (evs ++ events (k a fs')).
Proof. intros Hm. rewrite (bind_inr _ _ _ a); by rewrite Hm. Qed.

Lemma bind_fail {A B} (m : M A) (k : A -> M B) fs e fs' evs :
  m fs = Outcome (inl e) fs' evs -> (m ≫= k) fs = Outcome (inl e) fs' evs.
Proof. intros Hm. rewrite (bind_inl _ _ _ e); by rewrite Hm. Qed.

(** ** The fetch, from the resolved URLs on *)

Lemma resolver_disk (E : collaborators) (search : gmap string string)
    (kwargs : gmap string kwarg) (fs : gmap string string) :
  disk (_fetch_nsidc_urls E search kwargs fs) = fs.
Proof. rewrite resolver_run. by repeat case_match. Qed.

Lemma resolver_ignores_disk (E : collaborators) (search : gmap string string)
    (kwargs : gmap string kwarg) (fs fs' : gmap string string) :
  value (_fetch_nsidc_urls E search kwargs fs') =
    value (_fetch_nsidc_urls E search kwargs fs) /\
  events (_fetch_nsidc_urls E search kwargs fs') =
    events (_fetch_nsidc_urls E search kwargs fs).
Proof. rewrite !resolver_run. by repeat case_match. Qed.

Lemma resolver_events (E : collaborators) (search : gmap string string)
    (kwargs : gmap string kwarg) (fs : gmap string string) :
  forallb is_catalog_query (events (_fetch_nsidc_urls E search kwargs fs))
  = true.
Proof. rewrite resolver_run. by repeat case_match. Qed.

(** With a keyword missing the resolver is the granule strategy; the
    processor is no part of the choice. *)
Lemma resolver_granule_run (E : collaborators) (search : gmap string string)
    (kwargs : gmap string kwarg) (fs : gmap string string) :
  ~ (supplied kwargs "extra" /\ supplied kwargs "filename") ->
  _fetch_nsidc_urls E search (delete "processor" kwargs) fs =
  Outcome (granule_links E search) fs [EvSearchData search].
Proof.
  unfold supplied. intros Hmissing.
  rewrite resolver_run, !lookup_delete_ne by done.
  destruct (kwargs !! "extra") as [extra|]; [|done].
  destruct (kwargs !! "filename") as [filename|]; [|done].
  destruct Hmissing. eauto.
Qed.

Lemma fetch_nsidc_run (E : collaborators) (search : gmap string string)
    (kwargs : gmap string kwarg) (fs : gmap string string) :
  _fetch_nsidc E search kwargs fs =
  (urls ← _fetch_nsidc_urls E search (delete "processor" kwargs);
   filenames ← retrieve_all E (kwargs !! "processor") urls;
   ret (unwrap_single filenames)) fs.
Proof.
  unfold _fetch_nsidc, _fetch_nsidc_filenames, retrieve_all. cbv zeta.
  by rewrite bind_assoc.
Qed.

Lemma fetch_nsidc_of_urls (E : collaborators) (search : gmap string string)
    (kwargs : gmap string kwarg) (fs : gmap string string)
    (urls : list string) :
  value (_fetch_nsidc_urls E search (delete "processor" kwargs) fs)
    = inr urls ->
  _fetch_nsidc E search kwargs fs =
  let r := (filenames ← retrieve_all E (kwargs !! "processor") urls;
            ret (unwrap_single filenames)) fs in
  Outcome (value r) (disk r)
    (events (_fetch_nsidc_urls E search (delete "processor" kwargs) fs)
       ++ events r).
Proof.
  intros Hurls. rewrite fetch_nsidc_run, (bind_inr _ _ _ urls) by done.
  by rewrite resolver_disk.
Qed.

Lemma retrieve_all_cached (E : collaborators) (urls : list string)
    (fs : gmap string string) :
  Forall (fun url => is_Some (fs !! cache_path E url)) urls ->
  retrieve_all E None urls fs =
  Outcome (inr (map (fun url => PStr (cache_path E url)) urls)) fs [].
Proof.
  induction 1 as [|url urls Hurl _ IH]; [done|].
  unfold retrieve_all in *. cbn [py_listcomp map].
  rewrite (bind_run _ _ _ (PStr (cache_path E url)) fs []).
  2: { rewrite pooch_retrieve_run. fold (cache_path E url).
       by rewrite bool_decide_eq_true_2. }
  rewrite (bind_run _ _ _ (map (fun url => PStr (cache_path E url)) urls)
             fs []) by done.
  done.
Qed.

(** X2. A fetch without a processor never overwrites or removes a file that
    is in the cache: whatever the catalog and the servers answer, and whether
    the fetch returns or raises, every file there before is there afterwards
    with the same content. *)
Theorem nsidc_fetch_keeps_cached_files
    (E : collaborators) (search : gmap string string)
    (kwargs : gmap string kwarg) (fs : gmap string string) :
  kwargs !! "processor" = None ->
  fs ⊆ disk (_fetch_nsidc E search kwargs fs).
Proof.
  intros Hnone. rewrite fetch_nsidc_run, Hnone.
  apply (bind_disk (⊆)); [by rewrite resolver_disk|]. intros urls fs1.
  apply (bind_disk (⊆)); [|done].
  apply (py_listcomp_disk (⊆)). intros url fs2.
  apply earthdata_retrieve_keeps_files.
Qed.

Lemma nsidc_fetch_keeps_cached_files_witness :
  let fs : gmap string string := {[ Stub.cache +:+ "/a.nc" := "old" ]} in
  (∅ : gmap string kwarg) !! "processor" = None /\
  fs ⊆ disk (_fetch_nsidc Stub.world Stub.search ∅ fs) /\
  disk (_fetch_nsidc Stub.world Stub.search ∅ fs) !! (Stub.cache +:+ "/a.nc")
    = Some "old" /\
  disk (_fetch_nsidc Stub.world Stub.search ∅ fs) !! (Stub.cache +:+ "/b.nc")
    = Some (Stub.body_of "https://host/g/b.nc").
Proof.
  split; [reflexivity|].
  split; [exact (nsidc_fetch_keeps_cached_files Stub.world Stub.search ∅
                   {[ Stub.cache +:+ "/a.nc" := "old" ]} eq_refl)|].
  split; vm_compute; reflexivity.
Defined.

(** X3. When every resolved URL has its file in the cache, a fetch without a
    processor returns the cached paths (the path itself for one URL, the list
    otherwise) and leaves the files alone; it still queries the catalog, and
    does nothing else: no login, no HTTP request, no download. *)
Theorem nsidc_fetch_from_cache
    (E : collaborators) (search : gmap string string)
    (kwargs : gmap string kwarg) (fs : gmap string string)
    (urls : list string) :
  kwargs !! "processor" = None ->
  value (_fetch_nsidc_urls E search kwargs fs) = inr urls ->
  Forall (fun url => is_Some (fs !! cache_path E url)) urls ->
  let r := _fetch_nsidc E search kwargs fs in
  r = Outcome
        (inr (unwrap_single (map (fun url => PStr (cache_path E url)) urls)))
        fs (events (_fetch_nsidc_urls E search kwargs fs)) /\
  forallb is_catalog_query (events r) = true /\
  events r <> [].
Proof.
  intros Hnone Hurls Hcached r. subst r.
  assert (Hrun : _fetch_nsidc E search kwargs fs =
    Outcome
      (inr (unwrap_single (map (fun url => PStr (cache_path E url)) urls)))
      fs (events (_fetch_nsidc_urls E search kwargs fs))).
  { rewrite (fetch_nsidc_of_urls _ _ _ _ urls)
      by (by rewrite delete_id).
    rewrite Hnone, delete_id by done. cbn zeta.
    rewrite (bind_run _ _ _ _ _ _ (retrieve_all_cached E urls fs Hcached)).
    cbn. by rewrite app_nil_r. }
  rewrite Hrun. cbn [events]. split; [done|].
  split; [apply resolver_events|].
  rewrite resolver_run. by repeat case_match.
Qed.

Lemma nsidc_fetch_from_cache_witness :
  let fs : gmap string string :=
    {[ Stub.cache +:+ "/a.nc" := "a"; Stub.cache +:+ "/b.nc" := "b" ]} in
  _fetch_nsidc Stub.world Stub.search ∅ fs =
  Outcome (inr (PList [PStr (Stub.cache +:+ "/a.nc");
                       PStr (Stub.cache +:+ "/b.nc")]))
          fs [EvSearchData Stub.search].
Proof.
  refine (proj1 (nsidc_fetch_from_cache Stub.world Stub.search ∅
                   {[ Stub.cache +:+ "/a.nc" := "a";
                      Stub.cache +:+ "/b.nc" := "b" ]}
                   ["https://host/g/a.nc"; "https://host/g/b.nc"]
                   eq_refl eq_refl _)).
  repeat constructor; apply (bool_decide_unpack _); vm_compute; exact I.
Defined.

Lemma earthdata_retrieve_leaves_file (E : collaborators)
    (url fname path : string) (fs : gmap string string) (v : pyval) :
  value (pooch_retrieve url fname path (EarthdataDownloader E) None fs)
    = inr v ->
  v = PStr (path +:+ "/" +:+ fname) /\
  is_Some (disk (pooch_retrieve url fname path (EarthdataDownloader E) None fs)
             !! (path +:+ "/" +:+ fname)).
Proof.
  rewrite pooch_retrieve_run.
  destruct (bool_decide (is_Some (fs !! (path +:+ "/" +:+ fname)))) eqn:Hhit.
  - apply bool_decide_eq_true in Hhit. cbn. by intros [= <-].
  - cbn [apply_processor]. rewrite then_ret. cbn [value disk].
    rewrite EarthdataDownloader_run.
    destruct (earthaccess_login E) as [e|auth]; [done|].
    destruct (requests_get_url E url) as [e|final_url]; [done|].
    destruct (http_transfer E (Some auth) final_url) as [e|body]; [done|].
    cbn. intros [= <-]. split; [done|]. rewrite lookup_insert_eq. eauto.
Qed.

(** After a list of retrievals that all returned, every file is there. *)
Lemma retrieve_all_leaves_files (E : collaborators) (urls : list string) :
  forall (fs : gmap string string) (filenames : list pyval),
  value (retrieve_all E None urls fs) = inr filenames ->
  filenames = map (fun url => PStr (cache_path E url)) urls /\
  Forall (fun url => is_Some (disk (retrieve_all E None urls fs)
                                !! cache_path E url)) urls.
Proof.
  unfold retrieve_all.
  induction urls as [|url urls IH]; intros fs filenames Hrun.
  - cbn in Hrun. injection Hrun as <-. by split.
  - cbn [py_listcomp] in *.
    set (m := pooch_retrieve url (pathlib.name url) (pooch_os_cache E "icepack")
                (EarthdataDownloader E) None) in *.
    destruct (bind_value_inr _ _ _ _ Hrun) as (y & Hy & Hrest).
    rewrite (bind_inr _ _ _ y) by done. cbn [disk].
    rewrite (bind_inr _ _ _ y) in Hrun by done. cbn [value] in Hrun.
    clear Hrest.
    destruct (bind_value_inr _ _ _ _ Hrun) as (ys & Hys & Hret).
    rewrite (bind_inr _ _ _ ys) by done. cbn [disk ret].
    cbn in Hret. injection Hret as <-.
    destruct (earthdata_retrieve_leaves_file _ _ _ _ _ _ Hy) as [-> Hfile].
    destruct (IH _ _ Hys) as [-> Hfiles].
    split; [done|]. constructor; [|done].
    eapply lookup_weaken_is_Some; [exact Hfile|].
    apply (py_listcomp_disk (⊆)). intros u fs2.
    apply earthdata_retrieve_keeps_files.
Qed.

(** X4. Fetching again is a cache hit: after a fetch without a processor has
    returned, the same fetch on the files it left returns the same value,
    changes no file, and does nothing but query the catalog as before: no
    login, no HTTP request, no download. *)
Theorem nsidc_refetch_is_cache_hit
    (E : collaborators) (search : gmap string string)
    (kwargs : gmap string kwarg) (fs : gmap string string) (v : pyval) :
  kwargs !! "processor" = None ->
  value (_fetch_nsidc E search kwargs fs) = inr v ->
  let fs1 := disk (_fetch_nsidc E search kwargs fs) in
  _fetch_nsidc E search kwargs fs1 =
  Outcome (inr v) fs1 (events (_fetch_nsidc_urls E search kwargs fs)).
Proof.
  intros Hnone Hrun fs1. subst fs1. revert Hrun.
  rewrite (fetch_nsidc_run E search kwargs fs), Hnone, delete_id by done.
  intros Hrun.
  destruct (bind_value_inr _ _ _ _ Hrun) as (urls & Hurls & Hrest).
  rewrite resolver_disk in Hrest.
  destruct (bind_value_inr _ _ _ _ Hrest) as (filenames & Hfiles & Hret).
  cbn in Hret. injection Hret as <-.
  rewrite (bind_inr _ _ _ urls) by done. cbn [disk].
  rewrite resolver_disk, (bind_inr _ _ _ filenames) by done. cbn [disk ret].
  destruct (retrieve_all_leaves_files _ _ _ _ Hfiles) as [-> Hthere].
  set (fs1 := disk (retrieve_all E None urls fs)) in *.
  destruct (resolver_ignores_disk E search kwargs fs fs1) as [Hvalue Hevents].
  rewrite (fetch_nsidc_of_urls _ _ _ _ urls)
    by (by rewrite delete_id, Hvalue).
  rewrite Hnone, delete_id, Hevents by done. cbn zeta.
  rewrite (bind_run _ _ _ _ _ _ (retrieve_all_cached E urls fs1 Hthere)).
  cbn. by rewrite app_nil_r.
Qed.

Lemma nsidc_refetch_is_cache_hit_witness :
  let first := _fetch_nsidc Stub.world Stub.search ∅ ∅ in
  events first =
    [EvSearchData Stub.search;
     EvLogin; EvHttpGet "https://host/g/a.nc";
     EvDownload "https://host/g/a.nc" (Stub.cache +:+ "/a.nc");
     EvLogin; EvHttpGet "https://host/g/b.nc";
     EvDownload "https://host/g/b.nc" (Stub.cache +:+ "/b.nc")] /\
  _fetch_nsidc Stub.world Stub.search ∅ (disk first) =
  Outcome (inr (PList [PStr (Stub.cache +:+ "/a.nc");
                       PStr (Stub.cache +:+ "/b.nc")]))
          (disk first) [EvSearchData Stub.search].
Proof.
  split; [vm_compute; reflexivity|].
  exact (nsidc_refetch_is_cache_hit Stub.world Stub.search ∅ ∅
           (PList [PStr (Stub.cache +:+ "/a.nc");
                   PStr (Stub.cache +:+ "/b.nc")])
           eq_refl eq_refl).
Defined.

(** X5. A granule without data links is no error: under the granule
    strategy, when the first granule returned has no links, the fetch
    returns the empty list, after the one query and without any download. *)
Theorem granule_without_links_gives_empty_list
    (E : collaborators) (search : gmap string string)
    (kwargs : gmap string kwarg) (fs : gmap string string)
    (first : DataGranule) (rest : list DataGranule) :
  ~ (supplied kwargs "extra" /\ supplied kwargs "filename") ->
  earthaccess_search_data E search = inr (first :: rest) ->
  data_links first = [] ->
  _fetch_nsidc E search kwargs fs =
  Outcome (inr (PList [])) fs [EvSearchData search].
Proof.
  intros Hmissing Hdata Hlinks.
  pose proof (resolver_granule_run E search kwargs fs Hmissing) as Hurls.
  unfold granule_links in Hurls. rewrite Hdata, Hlinks in Hurls.
  rewrite (fetch_nsidc_of_urls _ _ _ _ []) by (by rewrite Hurls).
  by rewrite Hurls.
Qed.

Lemma granule_without_links_gives_empty_list_witness :
  _fetch_nsidc Stub2.linkless_catalog Stub.search ∅ ∅ =
  Outcome (inr (PList [])) ∅ [EvSearchData Stub.search].
Proof.
  refine (granule_without_links_gives_empty_list Stub2.linkless_catalog
            Stub.search ∅ ∅ {| data_links := [] |} [] _ eq_refl eq_refl).
  intros [[? H] _]. discriminate H.
Defined.

(** X6. A login that fails stops the fetch at the first file that is not in
    the cache: the exception of the login is the fetch's, no HTTP request
    and no download is made, no later URL is tried, the processor is not
    called, and the files are as they were. *)
Theorem login_failure_stops_fetch
    (E : collaborators) (search : gmap string string)
    (kwargs : gmap string kwarg) (fs : gmap string string)
    (url : string) (urls : list string) (e : exn) :
  value (_fetch_nsidc_urls E search (delete "processor" kwargs) fs)
    = inr (url :: urls) ->
  fs !! cache_path E url = None ->
  earthaccess_login E = inl e ->
  _fetch_nsidc E search kwargs fs =
  Outcome (inl e) fs
    (events (_fetch_nsidc_urls E search (delete "processor" kwargs) fs)
       ++ [EvLogin]).
Proof.
  intros Hurls Hfile Hlogin.
  rewrite (fetch_nsidc_of_urls _ _ _ _ (url :: urls)) by done. cbn zeta.
  assert (Hfirst :
    pooch_retrieve url (pathlib.name url) (pooch_os_cache E "icepack")
      (EarthdataDownloader E) (kwargs !! "processor") fs =
    Outcome (inl e) fs [EvLogin]).
  { rewrite pooch_retrieve_run. fold (cache_path E url).
    rewrite bool_decide_eq_false_2 by (rewrite Hfile; by intros [? ?]).
    apply bind_fail. by rewrite EarthdataDownloader_run, Hlogin. }
  unfold retrieve_all. cbn [py_listcomp].
  rewrite (bind_fail _ _ _ e fs [EvLogin]); [done|].
  by apply bind_fail.
Qed.

Lemma login_failure_stops_fetch_witness :
  _fetch_nsidc Stub2.no_login rgi_search (rgi_kw Stub2.no_login) ∅ =
  Outcome (inl (ExternalError "LoginAttemptFailure")) ∅
          [EvSearchDatasets rgi_search; EvLogin].
Proof.
  exact (login_failure_stops_fetch Stub2.no_login rgi_search
           (rgi_kw Stub2.no_login) ∅
           "https://host/data/global_files/RGI2000-v7.0-G-global.zip" []
           (ExternalError "LoginAttemptFailure")
           eq_refl eq_refl eq_refl).
Defined.

(** X7. Resolving the URLs leaves the cache alone and talks to the catalog
    only: one query, or two when the metadata strategy gave way to the
    granule strategy, and then in this order. *)
Theorem resolver_queries_catalog_only
    (E : collaborators) (search : gmap string string)
    (kwargs : gmap string kwarg) (fs : gmap string string) :
  let r := _fetch_nsidc_urls E search kwargs fs in
  disk r = fs /\
  forallb is_catalog_query (events r) = true /\
  (events r = [EvSearchData search] \/
   events r = [EvSearchDatasets search] \/
   events r = [EvSearchDatasets search; EvSearchData search]).
Proof.
  cbn zeta. split; [apply resolver_disk|]. split; [apply resolver_events|].
  rewrite resolver_run. repeat case_match; cbn; auto.
Qed.

(** X8. The fallback behind the choice of strategy: with both keywords
    supplied, a [KeyError] out of the metadata strategy (the first collection
    declares no data-access entry, or the catalog call itself raised one) is
    not the caller's to see.  The resolver goes on to query granules, and
    what it returns, links or exception, is the granule strategy's; the path
    fragment and the filename play no part in it. *)
Theorem metadata_KeyError_falls_back
    (E : collaborators) (search : gmap string string)
    (kwargs : gmap string kwarg) (fs : gmap string string)
    (extra filename : kwarg) (key : string) :
  kwargs !! "extra" = Some extra ->
  kwargs !! "filename" = Some filename ->
  value (metadata_strategy E search kwargs fs) = inl (KeyError key) ->
  _fetch_nsidc_urls E search kwargs fs =
    Outcome (granule_links E search) fs
            [EvSearchDatasets search; EvSearchData search] /\
  (earthaccess_search_datasets E search = inl (KeyError key) \/
   key = "get-data" /\
   exists first rest,
     earthaccess_search_datasets E search = inr (first :: rest) /\
     summary first !! "get-data" = None).
Proof.
  intros Hextra Hfilename.
  rewrite resolver_run, Hextra, Hfilename.
  rewrite (metadata_strategy_run _ _ _ _ extra filename) by done.
  cbn [value]. intros Hkey. rewrite Hkey. split; [done|].
  unfold metadata_url in Hkey.
  destruct (earthaccess_search_datasets E search) as [e|[|first rest]];
    [left; congruence|done|].
  destruct (summary first !! "get-data") as [[|base others]|] eqn:Hsummary;
    [done| |].
  - by destruct extra, filename.
  - injection Hkey as <-. right. split; [done|]. by exists first, rest.
Qed.

Lemma metadata_KeyError_falls_back_witness :
  _fetch_nsidc_urls Stub2.bare_catalog Stub.search Stub.kw_metadata ∅ =
  Outcome (inr ["https://host/g/a.nc"; "https://host/g/b.nc"]) ∅
          [EvSearchDatasets Stub.search; EvSearchData Stub.search].
Proof.
  exact (proj1 (metadata_KeyError_falls_back Stub2.bare_catalog Stub.search
                  Stub.kw_metadata ∅ (KwStr "extra/") (KwStr "f.tif")
                  "get-data" eq_refl eq_refl eq_refl)).
Defined.

(** ** The fetchers that pass a search only *)

Lemma bind_events_split {A B} (m : M A) (k : A -> M B) fs :
  exists evs,
    events ((m ≫= k) fs) = (events (m fs) ++ evs)%list /\
    (evs = [] \/
     exists a, value (m fs) = inr a /\ evs = events (k a (disk (m fs)))).
Proof.
  unfold mbind, M_bind, bind.
  destruct (value (m fs)) as [e|a] eqn:Hm; cbn [events].
  - exists []. rewrite app_nil_r. auto.
  - exists (events (k a (disk (m fs)))). split; [done|]. right. eauto.
Qed.

(** The run of a fetch with neither keyword nor processor. *)
Lemma plain_fetch_run (E : collaborators) (search : gmap string string)
    (fs : gmap string string) :
  let r := _fetch_nsidc E search ∅ fs in
  head (events r) = Some (EvSearchData search) /\
  uses_metadata_strategy (events r) = false /\
  existsb is_unzip (events r) = false /\
  (forall v, value r = inr v ->
     exists first rest,
       earthaccess_search_data E search = inr (first :: rest) /\
       v = unwrap_single
             (map (fun url => PStr (cache_path E url)) (data_links first))).
Proof.
  cbn zeta.
  assert (Hurls : forall fs', _fetch_nsidc_urls E search (delete "processor" ∅) fs' =
                  Outcome (granule_links E search) fs' [EvSearchData search]).
  { intros fs'. apply resolver_granule_run. intros [[? H] _]. discriminate H. }
  rewrite fetch_nsidc_run.
  destruct (bind_events_split
              (_fetch_nsidc_urls E search (delete "processor" ∅))
              (fun urls =>
                 filenames ← retrieve_all E ((∅ : gmap string kwarg) !! "processor") urls;
                 ret (unwrap_single filenames)) fs)
    as (evs & -> & Hevs).
  rewrite Hurls in *. cbn [events value disk app] in *.
  assert (Hsteps : forallb is_transfer_step evs = true).
  { destruct Hevs as [->|(urls & _ & ->)]; [done|].
    apply bind_events; [|done].
    apply py_listcomp_events. intros url fs2.
    apply earthdata_retrieve_events. }
  split; [done|].
  assert (Hquiet : forall e, is_transfer_step e = true ->
            is_search_datasets e = false /\ is_unzip e = false)
    by (by intros []).
  split; [|split].
  - cbn. apply not_true_is_false. intros Hex.
    apply existsb_exists in Hex as (e & He & Hq).
    rewrite forallb_forall in Hsteps.
    destruct (Hquiet e (Hsteps e He)). congruence.
  - cbn. apply not_true_is_false. intros Hex.
    apply existsb_exists in Hex as (e & He & Hq).
    rewrite forallb_forall in Hsteps.
    destruct (Hquiet e (Hsteps e He)). congruence.
  - intros v Hrun.
    destruct (bind_value_inr _ _ _ _ Hrun) as (urls & Hres & Hrest).
    rewrite Hurls in Hres, Hrest. cbn [value disk] in Hres, Hrest.
    unfold granule_links in Hres.
    destruct (earthaccess_search_data E search) as [e|[|first rest]];
      [done..|].
    injection Hres as <-. exists first, rest. split; [done|].
    destruct (bind_value_inr _ _ _ _ Hrest) as (filenames & Hfiles & Hret).
    cbn in Hret. injection Hret as <-.
    change ((∅ : gmap string kwarg) !! "processor") with (@None kwarg) in Hfiles.
    by destruct (retrieve_all_leaves_files _ _ _ _ Hfiles) as [-> _].
Qed.

(** X9. The fetchers of the MEaSUREs velocity maps, of the BedMachine maps
    and of the Greenland mosaic each run the granule strategy with their own
    search: the first thing they do is to query granules with it, they never
    query collections and never unzip, and what they return is the cache
    paths of the links of the first granule found, the path itself when
    there is one link. *)
Theorem plain_fetchers_use_granule_strategy
    (E : collaborators) (fs : gmap string string) :
  Forall (fun '(fetch, search) =>
            let r : outcome pyval := fetch fs in
            head (events r) = Some (EvSearchData search) /\
            uses_metadata_strategy (events r) = false /\
            existsb is_unzip (events r) = false /\
            (forall v, value r = inr v ->
               exists first rest,
                 earthaccess_search_data E search = inr (first :: rest) /\
                 v = unwrap_single
                       (map (fun url => PStr (cache_path E url))
                            (data_links first))))
         (plain_fetchers E).
Proof. repeat constructor; apply plain_fetch_run. Qed.

Lemma plain_fetchers_use_granule_strategy_witness :
  value (fetch_measures_greenland Stub.world ∅) =
    inr (PList [PStr (Stub.cache +:+ "/a.nc"); PStr (Stub.cache +:+ "/b.nc")]) /\
  head (events (fetch_measures_greenland Stub.world ∅)) =
    Some (EvSearchData measures_greenland_search) /\
  existsb is_unzip (events (fetch_measures_greenland Stub.world ∅)) = false.
Proof.
  pose proof (plain_fetchers_use_granule_strategy Stub.world ∅) as Hall.
  apply Forall_cons_1 in Hall as [_ Hall].
  apply Forall_cons_1 in Hall as [(Hhead & _ & Hunzip & _) _].
  split; [vm_compute; reflexivity|]. split; [exact Hhead|exact Hunzip].
Defined.

(** ** The name of the cached file *)

Lemma split_slash_nonempty (s : string) : pathlib.split_slash s <> [].
Proof.
  destruct s as [|c s]; cbn; [done|].
  destruct (Ascii.eqb c "/"); [done|]. by destruct (pathlib.split_slash s).
Qed.

Lemma split_slash_app (p q : string) :
  pathlib.split_slash (p +:+ "/" +:+ q) =
  (pathlib.split_slash p ++ pathlib.split_slash q)%list.
Proof.
  induction p as [|c p IH]; [reflexivity|].
  change (String c p +:+ "/" +:+ q) with (String c (p +:+ "/" +:+ q)).
  cbn [pathlib.split_slash]. rewrite IH.
  destruct (Ascii.eqb c "/"); [done|].
  destruct (pathlib.split_slash p) eqn:Hp; [|done].
  by apply split_slash_nonempty in Hp.
Qed.

Lemma split_slash_no_slash (f : string) :
  no_slash f = true -> pathlib.split_slash f = [f].
Proof.
  induction f as [|c f IH]; [done|]. cbn.
  destruct (Ascii.eqb c "/"); [done|]. cbn. intros Hf. by rewrite IH.
Qed.

(** The last component of a path that ends in a slash and a file name. *)
Lemma name_of_joined (p f : string) :
  no_slash f = true -> f <> EmptyString -> f <> "." ->
  pathlib.name (p +:+ "/" +:+ f) = f.
Proof.
  intros Hf Hempty Hdot. unfold pathlib.name, pathlib.parts.
  rewrite split_slash_app, (split_slash_no_slash f) by done.
  rewrite List.filter_app. cbn [List.filter].
  rewrite (proj2 (String.eqb_neq f EmptyString)) by done.
  rewrite (proj2 (String.eqb_neq f ".")) by done.
  cbn [negb andb]. apply last_last.
Qed.

Lemma name_of_url (base e f : string) :
  no_slash f = true -> f <> EmptyString -> f <> "." ->
  pathlib.name (base +:+ e +:+ "/" +:+ f) = f.
Proof.
  intros Hf Hempty Hdot.
  rewrite <- (append_assoc base e ("/" +:+ f)). by apply name_of_joined.
Qed.

(** ** The metadata strategy, from the query to the processor *)

Lemma single_listcomp {A} (f : A -> M pyval) (x : A) fs :
  (filenames ← py_listcomp f [x]; ret (unwrap_single filenames)) fs = f x fs.
Proof.
  cbn [py_listcomp]. rewrite bind_assoc.
  rewrite <- (bind_ret_r (f x) fs). apply bind_ext. intros y fs1.
  by rewrite bind_assoc, !bind_ret_l.
Qed.

(** With a path fragment that ends in a slash and a filename that is one
    path component, the fetch is one query for collections and one
    retrieval, of the URL put together from the first collection, into the
    cache file named by the filename. *)
Lemma metadata_fetch_single_retrieve
    (E : collaborators) (search : gmap string string)
    (kwargs : gmap string kwarg) (fs : gmap string string)
    (e f : string) (first : DataCollection) (rest : list DataCollection)
    (base : string) (others : list string) :
  kwargs !! "extra" = Some (KwStr (e +:+ "/")) ->
  kwargs !! "filename" = Some (KwStr f) ->
  no_slash f = true -> f <> EmptyString -> f <> "." ->
  earthaccess_search_datasets E search = inr (first :: rest) ->
  summary first !! "get-data" = Some (base :: others) ->
  _fetch_nsidc E search kwargs fs =
  (emit (EvSearchDatasets search);;
   pooch_retrieve (base +:+ e +:+ "/" +:+ f) f (pooch_os_cache E "icepack")
     (EarthdataDownloader E) (kwargs !! "processor")) fs.
Proof.
  intros Hextra Hfilename Hf Hempty Hdot Hdatasets Hsummary.
  assert (Hurls :
    _fetch_nsidc_urls E search (delete "processor" kwargs) fs =
    Outcome (inr [base +:+ e +:+ "/" +:+ f]) fs [EvSearchDatasets search]).
  { rewrite resolver_run, !lookup_delete_ne, Hextra, Hfilename by done.
    unfold metadata_url. rewrite Hdatasets, Hsummary.
    by rewrite !append_assoc. }
  rewrite (fetch_nsidc_of_urls _ _ _ _ [base +:+ e +:+ "/" +:+ f])
    by (by rewrite Hurls).
  rewrite Hurls. cbn zeta. cbn [events app]. unfold retrieve_all.
  rewrite single_listcomp, emit_bind.
  by rewrite name_of_url.
Qed.

(** X10. A metadata fetch on a cold cache, end to end.  With a path fragment
    that ends in a slash, a filename that is one path component and names a
    file (not empty, neither [.] nor [..]), a processor, a first collection
    that declares a base URL, nothing of that name in the cache, and a login,
    a redirection and a transfer that succeed: the fetch
    queries the collections, logs in, resolves the URL, downloads from the
    resolved URL into the cache file named by the filename, and then calls
    the processor on that file with action [Download]; the processor's result,
    files and exception are the fetch's, as they are. *)
Theorem metadata_fetch_on_cold_cache
    (E : collaborators) (search : gmap string string)
    (kwargs : gmap string kwarg) (fs : gmap string string)
    (e f : string) (p : string -> action -> M pyval)
    (first : DataCollection) (rest : list DataCollection)
    (base : string) (others : list string)
    (auth : string * string) (final_url body : string) :
  kwargs !! "extra" = Some (KwStr (e +:+ "/")) ->
  kwargs !! "filename" = Some (KwStr f) ->
  kwargs !! "processor" = Some (KwProc p) ->
  no_slash f = true -> f <> EmptyString -> f <> "." -> f <> ".." ->
  earthaccess_search_datasets E search = inr (first :: rest) ->
  summary first !! "get-data" = Some (base :: others) ->
  let url := base +:+ e +:+ "/" +:+ f in
  let path := pooch_os_cache E "icepack" +:+ "/" +:+ f in
  fs !! path = None ->
  earthaccess_login E = inr auth ->
  requests_get_url E url = inr final_url ->
  http_transfer E (Some auth) final_url = inr body ->
  _fetch_nsidc E search kwargs fs =
  let r := p path Download (<[path := body]> fs) in
  Outcome (value r) (disk r)
    ([EvSearchDatasets search; EvLogin; EvHttpGet url;
      EvDownload final_url path] ++ events r).
Proof.
  intros Hextra Hfilename Hproc Hf Hempty Hdot Hparent Hdatasets Hsummary
    url path Hfile Hlogin Hget Hbody. subst url path.
  rewrite (metadata_fetch_single_retrieve _ _ _ _ e f first rest base others)
    by done.
  rewrite emit_bind, pooch_retrieve_run, Hproc.
  rewrite bool_decide_eq_false_2 by (rewrite Hfile; by intros [? ?]).
  assert (Hdown :
    EarthdataDownloader E (base +:+ e +:+ "/" +:+ f)
      (pooch_os_cache E "icepack" +:+ "/" +:+ f) fs =
    Outcome (inr tt) (<[pooch_os_cache E "icepack" +:+ "/" +:+ f := body]> fs)
      [EvLogin; EvHttpGet (base +:+ e +:+ "/" +:+ f);
       EvDownload final_url (pooch_os_cache E "icepack" +:+ "/" +:+ f)])
    by (by rewrite EarthdataDownloader_run, Hlogin, Hget, Hbody).
  by rewrite (bind_run _ _ _ _ _ _ Hdown).
Qed.

Lemma metadata_fetch_on_cold_cache_witness :
  _fetch_nsidc Stub.world rgi_search (rgi_kw Stub.world) ∅ =
  let r := _recursive_unzip Stub.world Stub.top_zip Download
             (<[Stub.top_zip :=
                  Stub.body_of
                    "https://host/data/global_files/RGI2000-v7.0-G-global.zip"]>
                ∅) in
  Outcome (inr (PList [PStr (Stub.region_dir +:+ "/alaska.shp")])) (disk r)
    ([EvSearchDatasets rgi_search; EvLogin;
      EvHttpGet "https://host/data/global_files/RGI2000-v7.0-G-global.zip";
      EvDownload "https://host/data/global_files/RGI2000-v7.0-G-global.zip"
                 Stub.top_zip] ++ events r).
Proof.
  exact (metadata_fetch_on_cold_cache Stub.world rgi_search
           (rgi_kw Stub.world) ∅ "global_files" "RGI2000-v7.0-G-global.zip"
           (fun fname act =>
              results ← _recursive_unzip Stub.world fname act;
              ret (PList (map PStr results)))
           Stub.collection [] "https://host/data/" []
           ("user", "secret")
           "https://host/data/global_files/RGI2000-v7.0-G-global.zip"
           (Stub.body_of
              "https://host/data/global_files/RGI2000-v7.0-G-global.zip")
           eq_refl eq_refl eq_refl eq_refl
           ltac:(discriminate) ltac:(discriminate) ltac:(discriminate)
           eq_refl eq_refl eq_refl eq_refl eq_refl eq_refl).
Defined.

(** X11. The Antarctic mosaic is one query for collections and one retrieval:
    whatever base URL the first collection declares, the compressed image
    [geotiff/moa750_2009_hp1_v02.0.tif.gz] under it is what is asked for,
    the cache file carries that file name, and the decompressor named after
    the image without [.gz] is the processor; what the retrieval returns is
    what the fetcher returns, not a list around it. *)
Theorem mosaic_of_antarctica_is_one_retrieve
    (E : collaborators)
    (pooch_Decompress : string -> string -> action -> M pyval)
    (fs : gmap string string)
    (first : DataCollection) (rest : list DataCollection)
    (base : string) (others : list string) :
  earthaccess_search_datasets E mosaic_of_antarctica_search
    = inr (first :: rest) ->
  summary first !! "get-data" = Some (base :: others) ->
  fetch_mosaic_of_antarctica E pooch_Decompress fs =
  (emit (EvSearchDatasets mosaic_of_antarctica_search);;
   pooch_retrieve (base +:+ "geotiff/moa750_2009_hp1_v02.0.tif.gz")
     "moa750_2009_hp1_v02.0.tif.gz" (pooch_os_cache E "icepack")
     (EarthdataDownloader E)
     (Some (KwProc (pooch_Decompress "moa750_2009_hp1_v02.0.tif")))) fs.
Proof.
  intros Hdatasets Hsummary. unfold fetch_mosaic_of_antarctica. cbv zeta.
  by rewrite (metadata_fetch_single_retrieve _ _ _ _
                "geotiff" "moa750_2009_hp1_v02.0.tif.gz"
                first rest base others).
Qed.

Lemma mosaic_of_antarctica_is_one_retrieve_witness :
  fetch_mosaic_of_antarctica Stub.world Stub2.decompress ∅ =
  Outcome (inr (PStr (Stub.cache +:+ "/moa750_2009_hp1_v02.0.tif")))
    (<[Stub.cache +:+ "/moa750_2009_hp1_v02.0.tif" := "decompressed"]>
       (<[Stub.cache +:+ "/moa750_2009_hp1_v02.0.tif.gz" :=
            Stub.body_of
              "https://host/data/geotiff/moa750_2009_hp1_v02.0.tif.gz"]> ∅))
    [EvSearchDatasets mosaic_of_antarctica_search; EvLogin;
     EvHttpGet "https://host/data/geotiff/moa750_2009_hp1_v02.0.tif.gz";
     EvDownload "https://host/data/geotiff/moa750_2009_hp1_v02.0.tif.gz"
                (Stub.cache +:+ "/moa750_2009_hp1_v02.0.tif.gz")].
Proof.
  rewrite (mosaic_of_antarctica_is_one_retrieve Stub.world Stub2.decompress ∅
             Stub.collection [] "https://host/data/" [] eq_refl eq_refl).
  vm_compute. reflexivity.
Defined.

(** X12. The glacier inventory with its archive in the cache: whatever base
    URL the first collection declares, the fetch finds the archive under
    [RGI2000-v7.0-G-global.zip] in the cache directory, makes no login and no
    download, and unzips the archive anew, with action [Fetch]; the list of
    shapefiles of that unzipping is the result. *)
Theorem rgi_cached_archive_is_unzipped_again
    (E : collaborators) (fs : gmap string string)
    (first : DataCollection) (rest : list DataCollection)
    (base : string) (others : list string) :
  earthaccess_search_datasets E rgi_search = inr (first :: rest) ->
  summary first !! "get-data" = Some (base :: others) ->
  let archive := pooch_os_cache E "icepack" +:+ "/RGI2000-v7.0-G-global.zip" in
  is_Some (fs !! archive) ->
  fetch_randolph_glacier_inventory E None fs =
  (emit (EvSearchDatasets rgi_search);;
   results ← _recursive_unzip E archive Fetch;
   ret (PList (map PStr results))) fs.
Proof.
  intros Hdatasets Hsummary archive Hfile. subst archive.
  unfold fetch_randolph_glacier_inventory. rewrite bind_ret_r.
  rewrite (metadata_fetch_single_retrieve _ _ _ _
             "global_files" "RGI2000-v7.0-G-global.zip"
             first rest base others) by done.
  rewrite !emit_bind, pooch_retrieve_run.
  by rewrite bool_decide_eq_true_2.
Qed.

Lemma rgi_cached_archive_is_unzipped_again_witness :
  let fs : gmap string string := {[ Stub.top_zip := "archive" ]} in
  events (fetch_randolph_glacier_inventory Stub.world None fs) =
  [EvSearchDatasets rgi_search; EvUnzip Stub.top_zip; EvUnzip Stub.region_zip].
Proof.
  cbn zeta.
  rewrite (rgi_cached_archive_is_unzipped_again Stub.world
             {[ Stub.top_zip := "archive" ]}
             Stub.collection [] "https://host/data/" [] eq_refl eq_refl).
  - vm_compute. reflexivity.
  - apply (bool_decide_unpack _). vm_compute. exact I.
Defined.

(** ** The recursive unzip, archive by archive *)

Lemma pooch_Unzip_events (E : collaborators) (fname : string) (act : action)
    (fs : gmap string string) :
  events (pooch_Unzip E fname act fs) = [EvUnzip fname].
Proof. unfold pooch_Unzip. by destruct (zip_extract E fname act fs) as [|[]]. Qed.

Lemma unzip_all_events (E : collaborators) (act : action) (zs : list string) :
  forall (fs : gmap string string) (inner : list (list string)),
  value (py_listcomp (fun f => pooch_Unzip E f act) zs fs) = inr inner ->
  events (py_listcomp (fun f => pooch_Unzip E f act) zs fs) = map EvUnzip zs.
Proof.
  induction zs as [|z zs IH]; intros fs inner Hrun; [done|].
  cbn [py_listcomp] in *.
  destruct (bind_value_inr _ _ _ _ Hrun) as (y & Hy & Hrest).
  destruct (bind_value_inr _ _ _ _ Hrest) as (ys & Hys & _).
  rewrite (bind_inr _ _ _ y) by done. cbn [events].
  rewrite (bind_inr _ _ _ ys) by done. cbn [events ret].
  by rewrite pooch_Unzip_events, (IH _ _ Hys), app_nil_r.
Qed.

(** Once the top-level archive is open, the rest is the unzipping of its
    nested archives and the choice of the shapefiles among their outputs. *)
Lemma recursive_unzip_after_top (E : collaborators) (top : string)
    (act : action) (fs : gmap string string)
    (members : list string) (fs1 : gmap string string) :
  zip_extract E top act fs = inr (members, fs1) ->
  _recursive_unzip E top act fs =
  let r := (inner ← unzip_nested E members act;
            ret (List.filter is_shp (concat inner))) fs1 in
  Outcome (value r) (disk r) (EvUnzip top :: events r).
Proof.
  intros Htop. unfold _recursive_unzip.
  rewrite (bind_run _ _ _ members fs1 [EvUnzip top])
    by (unfold pooch_Unzip; by rewrite Htop).
  cbn zeta. cbn [app].
  assert (Hrest : forall fs',
    (results ← py_for members []
       (fun results filename =>
          if String.eqb (pathlib.suffix filename) ".zip"
          then inner_filenames ← pooch_Unzip E filename act;
               ret (results ++ inner_filenames)%list
          else ret results);
     ret (List.filter (fun r => String.eqb (pathlib.suffix r) ".shp") results))
      fs' =
    (inner ← unzip_nested E members act;
     ret (List.filter is_shp (concat inner))) fs').
  { intros fs'.
    rewrite (bind_ext_l _ _ _ _ (recursive_unzip_loop E act members [])).
    rewrite bind_assoc. apply bind_ext. intros inner fs2.
    by rewrite bind_ret_l. }
  by rewrite Hrest.
Qed.

(** X13. A damaged archive stops the recursive unzip.  If the top-level
    archive cannot be opened, its exception is the processor's and nothing
    else is tried.  If the first nested archive cannot be opened, its
    exception is the processor's: no list of shapefiles comes back, no later
    archive is opened, and what the top-level extraction wrote stays. *)
Theorem recursive_unzip_stops_at_bad_archive
    (E : collaborators) (top : string) (act : action)
    (fs : gmap string string) (e : exn) :
  (zip_extract E top act fs = inl e ->
   _recursive_unzip E top act fs = Outcome (inl e) fs [EvUnzip top]) /\
  (forall (members : list string) (fs1 : gmap string string)
          (z : string) (zs : list string),
     zip_extract E top act fs = inr (members, fs1) ->
     List.filter is_zip members = z :: zs ->
     zip_extract E z act fs1 = inl e ->
     _recursive_unzip E top act fs =
     Outcome (inl e) fs1 [EvUnzip top; EvUnzip z]).
Proof.
  split.
  - intros Htop. unfold _recursive_unzip. apply bind_fail.
    unfold pooch_Unzip. by rewrite Htop.
  - intros members fs1 z zs Htop Hzips Hz.
    rewrite (recursive_unzip_after_top _ _ _ _ members fs1) by done.
    unfold unzip_nested. rewrite Hzips. cbn [py_listcomp].
    assert (Hfail : pooch_Unzip E z act fs1 = Outcome (inl e) fs1 [EvUnzip z])
      by (unfold pooch_Unzip; by rewrite Hz).
    cbn zeta.
    by rewrite (bind_fail _ _ _ e fs1 [EvUnzip z])
      by (by apply bind_fail).
Qed.

Lemma recursive_unzip_stops_at_bad_archive_witness :
  _recursive_unzip Stub2.damaged "/tmp/notes.txt" Download ∅ =
    Outcome (inl (ExternalError "BadZipFile")) ∅ [EvUnzip "/tmp/notes.txt"] /\
  _recursive_unzip Stub2.damaged Stub.top_zip Download ∅ =
    Outcome (inl (ExternalError "BadZipFile"))
      (Stub.put_all [Stub.top_dir +:+ "/readme.txt"; Stub.region_zip] ∅)
      [EvUnzip Stub.top_zip; EvUnzip Stub.region_zip].
Proof.
  split.
  - exact (proj1 (recursive_unzip_stops_at_bad_archive Stub2.damaged
                    "/tmp/notes.txt" Download ∅ (ExternalError "BadZipFile"))
                 eq_refl).
  - exact (proj2 (recursive_unzip_stops_at_bad_archive Stub2.damaged
                    Stub.top_zip Download ∅ (ExternalError "BadZipFile"))
                 [Stub.top_dir +:+ "/readme.txt"; Stub.region_zip]
                 (Stub.put_all [Stub.top_dir +:+ "/readme.txt";
                                Stub.region_zip] ∅)
                 Stub.region_zip [] eq_refl eq_refl eq_refl).
Defined.

(** X14. A recursive unzip that returns has called the unzipper on the
    top-level archive and then, once each and in order, on the entries whose
    suffix is [.zip] of the listing that this first call returned, and on
    nothing else.  Every path it returns has the suffix [.shp]. *)
Theorem recursive_unzip_opens_nested_in_order
    (E : collaborators) (top : string) (act : action)
    (fs : gmap string string) (members : list string)
    (fs1 : gmap string string) (results : list string) :
  zip_extract E top act fs = inr (members, fs1) ->
  value (_recursive_unzip E top act fs) = inr results ->
  events (_recursive_unzip E top act fs) =
    EvUnzip top :: map EvUnzip (List.filter is_zip members) /\
  Forall (fun r => is_shp r = true) results.
Proof.
  intros Htop.
  rewrite (recursive_unzip_after_top _ _ _ _ members fs1) by done.
  cbn zeta. cbn [value events]. intros Hrun.
  destruct (bind_value_inr _ _ _ _ Hrun) as (inner & Hinner & Hret).
  cbn in Hret. injection Hret as <-.
  rewrite (bind_inr _ _ _ inner) by done. cbn [events ret].
  unfold unzip_nested in *.
  rewrite (unzip_all_events _ _ _ _ _ Hinner), app_nil_r.
  split; [done|]. apply List.Forall_forall. intros r Hr.
  by apply filter_In in Hr as [_ Hr].
Qed.

Lemma recursive_unzip_opens_nested_in_order_witness :
  events (_recursive_unzip Stub.world Stub.top_zip Download ∅) =
    [EvUnzip Stub.top_zip; EvUnzip Stub.region_zip] /\
  Forall (fun r => is_shp r = true) [Stub.region_dir +:+ "/alaska.shp"].
Proof.
  exact (recursive_unzip_opens_nested_in_order Stub.world Stub.top_zip
           Download ∅
           [Stub.top_dir +:+ "/outline.shp"; Stub.region_zip]
           (Stub.put_all [Stub.top_dir +:+ "/outline.shp"; Stub.region_zip] ∅)
           [Stub.region_dir +:+ "/alaska.shp"] eq_refl eq_refl).
Defined.

(** X15. An archive without a nested archive gives nothing: when no entry of
    the top-level archive has the suffix [.zip], the recursive unzip returns
    the empty list, whatever shapefiles the archive holds, after opening
    that one archive, whose extracted files stay. *)
Theorem recursive_unzip_without_nested_archive
    (E : collaborators) (top : string) (act : action)
    (fs : gmap string string) (members : list string)
    (fs1 : gmap string string) :
  zip_extract E top act fs = inr (members, fs1) ->
  List.filter is_zip members = [] ->
  _recursive_unzip E top act fs = Outcome (inr []) fs1 [EvUnzip top].
Proof.
  intros Htop Hzips.
  rewrite (recursive_unzip_after_top _ _ _ _ members fs1) by done.
  unfold unzip_nested. rewrite Hzips. cbn [py_listcomp].
  by rewrite bind_ret_l.
Qed.

Lemma recursive_unzip_without_nested_archive_witness :
  _recursive_unzip Stub2.flat Stub.top_zip Download ∅ =
  Outcome (inr [])
    (Stub.put_all [Stub.top_dir +:+ "/alaska.shp";
                   Stub.top_dir +:+ "/alaska.dbf"] ∅)
    [EvUnzip Stub.top_zip].
Proof.
  exact (recursive_unzip_without_nested_archive Stub2.flat Stub.top_zip
           Download ∅
           [Stub.top_dir +:+ "/alaska.shp"; Stub.top_dir +:+ "/alaska.dbf"]
           (Stub.put_all [Stub.top_dir +:+ "/alaska.shp";
                          Stub.top_dir +:+ "/alaska.dbf"] ∅)
           eq_refl eq_refl).
Defined.

(** ** The glacier inventory: what comes back *)

Lemma recursive_unzip_results_shp (E : collaborators) (top : string)
    (act : action) (fs : gmap string string) (results : list string) :
  value (_recursive_unzip E top act fs) = inr results ->
  Forall (fun r => is_shp r = true) results.
Proof.
  unfold _recursive_unzip. intros Hrun.
  destruct (bind_value_inr _ _ _ _ Hrun) as (filenames & _ & Hrest).
  destruct (bind_value_inr _ _ _ _ Hrest) as (found & _ & Hret).
  cbn in Hret. injection Hret as <-.
  apply List.Forall_forall. intros r Hr.
  by apply filter_In in Hr as [_ Hr].
Qed.

Lemma retrieve_unzip_result (E : collaborators) (url fname path : string)
    (fs : gmap string string) (v : pyval) :
  value (pooch_retrieve url fname path (EarthdataDownloader E)
           (Some (recursive_unzip_processor E)) fs) = inr v ->
  exists results,
    v = PList (map PStr results) /\ Forall (fun r => is_shp r = true) results.
Proof.
  assert (Hproc : forall act fs',
    value (apply_processor (Some (recursive_unzip_processor E))
             (path +:+ "/" +:+ fname) act fs') = inr v ->
    exists results,
      v = PList (map PStr results) /\
      Forall (fun r => is_shp r = true) results).
  { intros act fs' Hrun. cbn [apply_processor recursive_unzip_processor] in Hrun.
    destruct (bind_value_inr _ _ _ _ Hrun) as (results & Hresults & Hret).
    cbn in Hret. injection Hret as <-. exists results. split; [done|].
    by eapply recursive_unzip_results_shp. }
  rewrite pooch_retrieve_run.
  destruct (bool_decide (is_Some (fs !! (path +:+ "/" +:+ fname))));
    [apply Hproc|].
  intros Hrun. destruct (bind_value_inr _ _ _ _ Hrun) as ([] & _ & Hrest).
  by eapply Hproc.
Qed.

Lemma leaves_paths (paths : list string) :
  leaves (PList (map PStr paths)) = paths.
Proof.
  cbn [leaves]. induction paths as [|p paths IH]; [done|].
  cbn. by f_equal.
Qed.

Lemma leaves_unwrap_single (P : string -> Prop) (l : list pyval) :
  Forall (fun x => Forall P (leaves x)) l ->
  Forall P (leaves (unwrap_single l)).
Proof.
  intros Hl. rewrite unwrap_single_cases.
  destruct l as [|x [|y l]].
  - constructor.
  - by apply Forall_inv in Hl.
  - cbn [leaves]. by apply Forall_flat_map.
Qed.

(** What the pipeline of the inventory returns is a list, and every path in
    it, lists within the list included, is a shapefile's. *)
Lemma rgi_pipeline_result (E : collaborators) (fs : gmap string string)
    (all_filenames : pyval) :
  value (_fetch_nsidc E rgi_search (rgi_kw E) fs) = inr all_filenames ->
  exists l, all_filenames = PList l /\
    Forall (fun x => Forall (fun r => is_shp r = true) (leaves x)) l.
Proof.
  rewrite fetch_nsidc_run. intros Hrun.
  destruct (bind_value_inr _ _ _ _ Hrun) as (urls & _ & Hrest).
  destruct (bind_value_inr _ _ _ _ Hrest) as (filenames & Hfiles & Hret).
  cbn in Hret. injection Hret as <-.
  change (rgi_kw E !! "processor") with (Some (recursive_unzip_processor E))
    in Hfiles.
  apply py_listcomp_Forall2 in Hfiles.
  assert (Hshp : Forall (fun y => exists results,
                    y = PList (map PStr results) /\
                    Forall (fun r => is_shp r = true) results) filenames).
  { clear Hrun Hrest. induction Hfiles as [|url y urls' ys [fs' Hy] _ IH];
      constructor; [|done].
    by eapply retrieve_unzip_result. }
  rewrite unwrap_single_cases.
  destruct filenames as [|y [|y' filenames]].
  - exists []. by split.
  - apply Forall_inv in Hshp as (results & -> & Hresults).
    exists (map PStr results). split; [done|].
    apply Forall_map. eapply Forall_impl; [exact Hresults|].
    intros r Hr. cbn. by constructor.
  - eexists. split; [done|].
    eapply Forall_impl; [exact Hshp|].
    intros y0 (results & -> & Hresults). by rewrite leaves_paths.
Qed.

(** X16. The glacier inventory returns shapefiles and nothing else: whatever
    the catalog, the servers and the archives hold, and whether a region is
    named or not, every path in a value that
    [fetch_randolph_glacier_inventory] returns has the suffix [.shp]. *)
Theorem rgi_returns_shapefiles_only
    (E : collaborators) (name : option string) (fs : gmap string string)
    (v : pyval) :
  value (fetch_randolph_glacier_inventory E name fs) = inr v ->
  Forall (fun p => is_shp p = true) (leaves v).
Proof.
  unfold fetch_randolph_glacier_inventory. intros Hrun.
  destruct (bind_value_inr _ _ _ _ Hrun) as (all_filenames & Hall & Hrest).
  destruct (rgi_pipeline_result _ _ _ Hall) as (l & -> & Hl).
  destruct name as [n|].
  - cbn [py_iter] in Hrest.
    destruct (Nat.eqb (List.length (List.filter (py_in n) l)) 0); [done|].
    cbn in Hrest. injection Hrest as <-.
    apply leaves_unwrap_single, List.Forall_forall. intros x Hx.
    apply filter_In in Hx as [Hx _].
    by apply (proj1 (List.Forall_forall _ _) Hl).
  - cbn in Hrest. injection Hrest as <-.
    cbn [leaves]. by apply Forall_flat_map.
Qed.

Lemma rgi_returns_shapefiles_only_witness :
  value (fetch_randolph_glacier_inventory Stub.world (Some "alaska") ∅) =
    inr (PStr (Stub.region_dir +:+ "/alaska.shp")) /\
  Forall (fun p => is_shp p = true)
         (leaves (PStr (Stub.region_dir +:+ "/alaska.shp"))).
Proof.
  assert (Hrun : value (fetch_randolph_glacier_inventory Stub.world
                          (Some "alaska") ∅) =
                 inr (PStr (Stub.region_dir +:+ "/alaska.shp")))
    by (vm_compute; reflexivity).
  split; [exact Hrun|].
  exact (rgi_returns_shapefiles_only Stub.world (Some "alaska") ∅ _ Hrun).
Defined.

(** ** The glacier inventory: the choice of a region *)

Lemma prefix_spec (n h : string) :
  String.prefix n h = true <-> exists post, h = n +:+ post.
Proof.
  revert h. induction n as [|a n IH]; intros h.
  - destruct h; cbn; split; eauto.
  - destruct h as [|b h]; cbn.
    + split; [done|]. by intros [post Hpost].
    + destruct (ascii_dec a b) as [->|Hne].
      * rewrite IH. split.
        -- intros [post ->]. by exists post.
        -- intros [post Hpost]. injection Hpost as ->. by exists post.
      * split; [done|]. intros [post Hpost]. injection Hpost as -> _. done.
Qed.

(** The substring test is the one of Python's [in] on two strings. *)
Lemma str_contains_spec (n h : string) :
  str_contains n h = true <-> exists pre post, h = pre +:+ n +:+ post.
Proof.
  induction h as [|c h IH].
  - cbn [str_contains]. rewrite orb_false_r, prefix_spec. split.
    + intros [post Hpost]. by exists EmptyString, post.
    + intros ([|c pre] & post & Hpost); [by exists post|done].
  - cbn [str_contains]. rewrite orb_true_iff, prefix_spec, IH. split.
    + intros [[post ->]|(pre & post & ->)].
      * by exists EmptyString, post.
      * by exists (String c pre), post.
    + intros ([|c' pre] & post & Hpost).
      * left. by exists post.
      * right. injection Hpost as -> ->. by exists pre, post.
Qed.

Lemma filter_py_in_paths (n : string) (paths : list string) :
  List.filter (py_in n) (map PStr paths) =
  map PStr (List.filter (str_contains n) paths).
Proof.
  induction paths as [|p paths IH]; [done|].
  cbn. destruct (str_contains n p); cbn; by rewrite IH.
Qed.

(** X17. Naming a region selects by substring, after the whole inventory has
    been fetched.  When the unfiltered fetch returns a list of paths, the
    fetch for a region name does exactly what the unfiltered one does to the
    catalog, the servers and the cache, and returns the paths that contain
    the name as a substring, in order: the path itself for one match, the
    list for several, the region [ValueError] for none. *)
Theorem rgi_region_is_a_substring_filter
    (E : collaborators) (fs : gmap string string) (n : string)
    (paths : list string) :
  value (fetch_randolph_glacier_inventory E None fs)
    = inr (PList (map PStr paths)) ->
  let unfiltered := fetch_randolph_glacier_inventory E None fs in
  let selected := List.filter (str_contains n) paths in
  fetch_randolph_glacier_inventory E (Some n) fs =
    Outcome match selected with
            | [] => inl (rgi_region_error n)
            | [p] => inr (PStr p)
            | _ => inr (PList (map PStr selected))
            end
            (disk unfiltered) (events unfiltered) /\
  (forall p, In p selected <->
             In p paths /\ exists pre post, p = pre +:+ n +:+ post).
Proof.
  intros Hrun unfiltered selected. subst unfiltered selected. split.
  - revert Hrun. unfold fetch_randolph_glacier_inventory.
    rewrite bind_ret_r. intros Hrun.
    rewrite (bind_inr _ _ _ (PList (map PStr paths))) by done.
    cbn [py_iter]. rewrite filter_py_in_paths, length_map.
    destruct (List.filter (str_contains n) paths) as [|p [|q selected]];
      cbn; by rewrite ?app_nil_r.
  - intros p. by rewrite filter_In, str_contains_spec.
Qed.

Lemma rgi_region_is_a_substring_filter_witness :
  fetch_randolph_glacier_inventory Stub.world (Some "alaska") ∅ =
    Outcome (inr (PStr (Stub.region_dir +:+ "/alaska.shp")))
      (disk (fetch_randolph_glacier_inventory Stub.world None ∅))
      (events (fetch_randolph_glacier_inventory Stub.world None ∅)) /\
  fetch_randolph_glacier_inventory Stub.world (Some "andes") ∅ =
    Outcome (inl (rgi_region_error "andes"))
      (disk (fetch_randolph_glacier_inventory Stub.world None ∅))
      (events (fetch_randolph_glacier_inventory Stub.world None ∅)).
Proof.
  assert (Hrun : value (fetch_randolph_glacier_inventory Stub.world None ∅) =
                 inr (PList (map PStr [Stub.region_dir +:+ "/alaska.shp"])))
    by (vm_compute; reflexivity).
  split.
  - exact (proj1 (rgi_region_is_a_substring_filter Stub.world ∅ "alaska"
                    [Stub.region_dir +:+ "/alaska.shp"] Hrun)).
  - exact (proj1 (rgi_region_is_a_substring_filter Stub.world ∅ "andes"
                    [Stub.region_dir +:+ "/alaska.shp"] Hrun)).
Defined.

(** ** Outlines: what a fetch does to the cache and to the network *)

Lemma fetch_outline_unknown_run
    (E : collaborators) (name : string) (commit : option string)
    (fs : gmap string string) :
  name ∉ get_glacier_names ->
  fetch_outline E name commit fs = Outcome (inl (NameError "names")) fs [].
Proof.
  intros Hname. unfold fetch_outline.
  destruct (existsb (String.eqb name) get_glacier_names) eqn:Hin.
  - by apply existsb_eqb_elem_of in Hin.
  - cbn [negb]. by rewrite (bind_inl _ _ _ (NameError "names")).
Qed.

(** The three runs of [fetch_outline] for a glacier of the catalog. *)
Lemma fetch_outline_known_run
    (E : collaborators) (name : string) (commit : option string)
    (fs : gmap string string) :
  name ∈ get_glacier_names ->
  fetch_outline E name commit fs =
  match fs !! outline_cache_path E name with
  | Some _ => Outcome (inr (PStr (outline_cache_path E name))) fs []
  | None =>
      match http_transfer E None (outline_url name commit) with
      | inl e =>
          Outcome (inl e) fs
            [EvDownload (outline_url name commit) (outline_cache_path E name)]
      | inr body =>
          Outcome (inr (PStr (outline_cache_path E name)))
            (<[outline_cache_path E name := body]> fs)
            [EvDownload (outline_url name commit) (outline_cache_path E name)]
      end
  end.
Proof.
  intros Hname. rewrite fetch_outline_known by done.
  rewrite pooch_retrieve_run. fold (outline_cache_path E name).
  destruct (fs !! outline_cache_path E name) as [content|] eqn:Hfile.
  - by rewrite bool_decide_eq_true_2 by eauto.
  - rewrite bool_decide_eq_false_2 by (by intros [? ?]).
    cbn [apply_processor]. rewrite then_ret, HTTPDownloader_run.
    by destruct (http_transfer E None (outline_url name commit)).
Qed.



(** X19. A download that fails leaves no outline behind: for a glacier of
    the catalog whose outline is not in the cache, an exception of the
    transfer is the exception of [fetch_outline], and the cache is as it was,
    so that the next call asks for the download again. *)
Theorem fetch_outline_failed_download_leaves_no_file
    (E : collaborators) (name : string) (commit : option string)
    (fs : gmap string string) (e : exn) :
  name ∈ get_glacier_names ->
  fs !! outline_cache_path E name = None ->
  http_transfer E None (outline_url name commit) = inl e ->
  let r := fetch_outline E name commit fs in
  r = Outcome (inl e) fs
        [EvDownload (outline_url name commit) (outline_cache_path E name)] /\
  fetch_outline E name commit (disk r) = r.
Proof.
  intros Hname Hfile Hfail. cbn zeta.
  assert (Hrun : fetch_outline E name commit fs =
    Outcome (inl e) fs
      [EvDownload (outline_url name commit) (outline_cache_path E name)])
    by (by rewrite fetch_outline_known_run, Hfile, Hfail).
  by rewrite !Hrun.
Qed.

Lemma fetch_outline_failed_download_leaves_no_file_witness :
  fetch_outline Stub2.offline "helheim" None ∅ =
  Outcome (inl (ExternalError "ConnectionError")) ∅
    [EvDownload (outline_url "helheim" None)
                (Stub.cache +:+ "/helheim.geojson")].
Proof.
  assert (Hname : "helheim" ∈ get_glacier_names)
    by (apply (bool_decide_unpack _); vm_compute; exact I).
  exact (proj1 (fetch_outline_failed_download_leaves_no_file Stub2.offline
                  "helheim" None ∅ (ExternalError "ConnectionError")
                  Hname eq_refl eq_refl)).
Defined.

Lemma outline_cache_path_inj (E : collaborators) (n1 n2 : string) :
  outline_cache_path E n1 = outline_cache_path E n2 -> n1 = n2.
Proof.
  unfold outline_cache_path. intros Heq.
  apply (inj (String.app _)) in Heq. apply (inj (String.app _)) in Heq.
  by apply append_inj_r in Heq.
Qed.

(** X20. An outline has a place of its own in the cache: [fetch_outline]
    changes no file but the one of the glacier it is called for, and two
    glaciers never share a file, so that fetching one outline leaves every
    other outline in the cache as it was. *)
Theorem fetch_outline_touches_its_own_file_only
    (E : collaborators) (name : string) (commit : option string)
    (fs : gmap string string) :
  (forall p, p <> outline_cache_path E name ->
     disk (fetch_outline E name commit fs) !! p = fs !! p) /\
  (forall other, other <> name ->
     outline_cache_path E other <> outline_cache_path E name /\
     disk (fetch_outline E name commit fs) !! outline_cache_path E other
       = fs !! outline_cache_path E other).
Proof.
  assert (Hown : forall p, p <> outline_cache_path E name ->
            disk (fetch_outline E name commit fs) !! p = fs !! p).
  { intros p Hp.
    destruct (decide (name ∈ get_glacier_names)) as [Hname|Hname].
    - rewrite fetch_outline_known_run by done.
      destruct (fs !! outline_cache_path E name); [done|].
      destruct (http_transfer E None (outline_url name commit)); [done|].
      cbn. by rewrite lookup_insert_ne.
    - by rewrite fetch_outline_unknown_run. }
  split; [exact Hown|]. intros other Hother.
  assert (Hpath : outline_cache_path E other <> outline_cache_path E name)
    by (intros Heq; by apply outline_cache_path_inj in Heq).
  split; [done|]. by apply Hown.
Qed.

Lemma fetch_outline_touches_its_own_file_only_witness :
  let fs : gmap string string :=
    {[ Stub.cache +:+ "/getz.geojson" := "getz outline" ]} in
  outline_cache_path Stub.world "getz" <> outline_cache_path Stub.world "helheim" /\
  disk (fetch_outline Stub.world "helheim" None fs)
    !! outline_cache_path Stub.world "getz" = Some "getz outline".
Proof.
  cbn zeta.
  destruct (fetch_outline_touches_its_own_file_only Stub.world "helheim" None
              {[ Stub.cache +:+ "/getz.geojson" := "getz outline" ]})
    as [_ Hother].
  destruct (Hother "getz" ltac:(discriminate)) as [Hne Hsame].
  split; [exact Hne|]. rewrite Hsame. vm_compute. reflexivity.
Defined.

(** ** Suffixes and names *)

Lemma rfind_no_dot (s : string) :
  no_dot s = true -> pathlib.rfind "." s = None.
Proof.
  induction s as [|c s IH]; [done|]. cbn.
  destruct (Ascii.eqb c "."); [done|]. cbn. intros Hs. by rewrite IH.
Qed.

Lemma rfind_app (c : ascii) (a b : string) :
  pathlib.rfind c (a +:+ b) =
  match pathlib.rfind c b with
  | Some i => Some (String.length a + i)
  | None => pathlib.rfind c a
  end.
Proof.
  induction a as [|x a IH].
  - change (EmptyString +:+ b) with b. by destruct (pathlib.rfind c b).
  - change (String x a +:+ b) with (String x (a +:+ b)).
    cbn [pathlib.rfind String.length]. rewrite IH.
    by destruct (pathlib.rfind c b).
Qed.

Lemma substring_app_skip (a b : string) (n : nat) :
  String.substring (String.length a) n (a +:+ b) = String.substring 0 n b.
Proof. induction a as [|x a IH]; [done|]. exact IH. Qed.

Lemma substring_all (s : string) :
  String.substring 0 (String.length s) s = s.
Proof. induction s as [|c s IH]; [done|]. cbn. by rewrite IH. Qed.

Lemma substring_split (s : string) :
  forall i, i <= String.length s ->
  s = String.substring 0 i s +:+ String.substring i (String.length s - i) s.
Proof.
  induction s as [|c s IH]; intros [|i] Hi; cbn in *; try lia.
  - done.
  - by rewrite substring_all.
  - change (String c (String.substring 0 i s) +:+
              String.substring i (String.length s - i) s)
      with (String c (String.substring 0 i s +:+
                        String.substring i (String.length s - i) s)).
    rewrite <- IH by lia. done.
Qed.

Lemma substring_prefix_length (s : string) :
  forall i, i <= String.length s ->
  String.length (String.substring 0 i s) = i.
Proof.
  induction s as [|c s IH]; intros [|i] Hi; cbn in *; try lia; try done.
  rewrite IH by lia. done.
Qed.

(** A path has the suffix [.ext], for an extension without a dot, exactly
    when its last component is a stem that is not empty, a dot and the
    extension. *)
Lemma suffix_spec (p ext : string) :
  no_dot ext = true -> ext <> EmptyString ->
  pathlib.suffix p = "." +:+ ext <->
  exists stem, stem <> EmptyString /\ pathlib.name p = stem +:+ "." +:+ ext.
Proof.
  intros Hext Hne. unfold pathlib.suffix. split.
  - destruct (pathlib.rfind "." (pathlib.name p)) as [i|]; [|done].
    destruct (Nat.ltb 0 i && Nat.ltb i (String.length (pathlib.name p) - 1))
      eqn:Hi; [|done].
    apply andb_true_iff in Hi as [Hpos Hlt].
    apply Nat.ltb_lt in Hpos, Hlt. intros Hsuffix.
    exists (String.substring 0 i (pathlib.name p)). split.
    + intros Hstem. apply (f_equal String.length) in Hstem.
      rewrite substring_prefix_length in Hstem by lia. cbn in Hstem. lia.
    + rewrite <- Hsuffix. apply substring_split. lia.
  - intros (stem & Hstem & ->).
    rewrite rfind_app.
    change ("." +:+ ext) with (String "." ext). cbn [pathlib.rfind].
    rewrite rfind_no_dot by done. cbn [Ascii.eqb Bool.eqb].
    rewrite length_append. cbn [String.length].
    assert (0 < String.length stem) by (destruct stem; cbn; [done|lia]).
    assert (0 < String.length ext) by (destruct ext; cbn; [done|lia]).
    rewrite (proj2 (Nat.ltb_lt 0 (String.length stem + 0))) by lia.
    rewrite (proj2 (Nat.ltb_lt _ _)) by lia. cbn [andb].
    rewrite Nat.add_0_r, substring_app_skip.
    replace (String.length stem + S (String.length ext) - String.length stem)
      with (String.length (String "." ext)) by (cbn; lia).
    apply substring_all.
Qed.

(** X21. What counts as an archive and what as a shapefile is read off the
    last component of the path: the recursive unzip opens an entry exactly
    when its name is a stem that is not empty followed by [.zip], and keeps
    an output exactly when its name is such a stem followed by [.shp], with
    these very letters. *)
Theorem archives_and_shapefiles_by_name (p : string) :
  (is_zip p = true <->
   exists stem, stem <> EmptyString /\ pathlib.name p = stem +:+ ".zip") /\
  (is_shp p = true <->
   exists stem, stem <> EmptyString /\ pathlib.name p = stem +:+ ".shp").
Proof.
  unfold is_zip, is_shp. rewrite !String.eqb_eq. split.
  - by apply (suffix_spec p "zip").
  - by apply (suffix_spec p "shp").
Qed.

Lemma archives_and_shapefiles_by_name_witness :
  is_zip "/cache/RGI.zip.unzip/RGI2000-v7.0-G-01_alaska.zip" = true /\
  is_shp "/cache/RGI.zip.unzip/alaska.SHP" = false /\
  is_shp "/cache/.shp" = false.
Proof.
  split; [|by split].
  apply (proj2 (proj1 (archives_and_shapefiles_by_name
                         "/cache/RGI.zip.unzip/RGI2000-v7.0-G-01_alaska.zip"))).
  exists "RGI2000-v7.0-G-01_alaska". split; [discriminate|reflexivity].
Defined.

Lemma split_slash_pieces (s : string) :
  Forall (fun piece => no_slash piece = true) (pathlib.split_slash s).
Proof.
  induction s as [|c s IH]; [by repeat constructor|].
  cbn [pathlib.split_slash].
  destruct (Ascii.eqb c "/") eqn:Hc; [by constructor|].
  destruct (pathlib.split_slash s) as [|piece pieces].
  - constructor; [|done]. cbn. by rewrite Hc.
  - apply Forall_cons_1 in IH as [Hpiece Hpieces].
    constructor; [|done]. cbn. by rewrite Hc.
Qed.

(** X22. The name under which [_fetch_nsidc] stores a URL, the last
    component of the URL, never holds a slash; and a slash at the end of the
    URL does not change that name. *)
Theorem cache_file_name_has_no_slash (url : string) :
  no_slash (pathlib.name url) = true /\
  pathlib.name (url +:+ "/") = pathlib.name url.
Proof.
  split.
  - unfold pathlib.name, pathlib.parts.
    pose proof (split_slash_pieces url) as Hpieces.
    induction (pathlib.split_slash url) as [|piece pieces IH]; [done|].
    apply Forall_cons_1 in Hpieces as [Hpiece Hpieces]. cbn [List.filter].
    destruct (negb (String.eqb piece EmptyString) &&
              negb (String.eqb piece ".")); [|by apply IH].
    specialize (IH Hpieces).
    destruct (List.filter _ pieces) eqn:Hrest; [done|]. exact IH.
  - unfold pathlib.name, pathlib.parts.
    change (url +:+ "/") with (url +:+ "/" +:+ EmptyString).
    rewrite split_slash_app. cbn [pathlib.split_slash].
    rewrite List.filter_app. cbn [List.filter String.eqb negb andb].
    by rewrite app_nil_r.
Qed.

Lemma cache_file_name_has_no_slash_witness :
  pathlib.name "https://host/g/a.nc" = "a.nc" /\
  pathlib.name ("https://host/g/a.nc" +:+ "/") = "a.nc".
Proof.
  split; [reflexivity|].
  rewrite (proj2 (cache_file_name_has_no_slash "https://host/g/a.nc")).
  reflexivity.
Defined.

(** ** Two URLs, one name *)

(** X23. Two links with the same last component share one cache file.  When
    a fetch without a processor resolves two URLs of the same name, a name
    that names a file (not empty, not [..]), with nothing of that name in the
    cache, and the first download succeeds, the second URL is never
    asked for: its retrieval finds the first one's file under the common
    name, and the fetch returns that one path twice. *)
Theorem same_name_urls_share_one_file
    (E : collaborators) (search : gmap string string)
    (kwargs : gmap string kwarg) (fs : gmap string string)
    (url1 url2 : string) (auth : string * string)
    (final_url body : string) :
  kwargs !! "processor" = None ->
  value (_fetch_nsidc_urls E search kwargs fs) = inr [url1; url2] ->
  pathlib.name url1 = pathlib.name url2 ->
  names_a_file (pathlib.name url1) = true ->
  fs !! cache_path E url1 = None ->
  earthaccess_login E = inr auth ->
  requests_get_url E url1 = inr final_url ->
  http_transfer E (Some auth) final_url = inr body ->
  _fetch_nsidc E search kwargs fs =
  Outcome (inr (PList [PStr (cache_path E url1); PStr (cache_path E url1)]))
    (<[cache_path E url1 := body]> fs)
    (events (_fetch_nsidc_urls E search kwargs fs) ++
     [EvLogin; EvHttpGet url1; EvDownload final_url (cache_path E url1)]).
Proof.
  intros Hnone Hurls Hname Hnamed Hfile Hlogin Hget Hbody.
  rewrite (fetch_nsidc_of_urls _ _ _ _ [url1; url2])
    by (by rewrite delete_id).
  rewrite Hnone, delete_id by done. cbn zeta.
  assert (Hfirst :
    pooch_retrieve url1 (pathlib.name url1) (pooch_os_cache E "icepack")
      (EarthdataDownloader E) None fs =
    Outcome (inr (PStr (cache_path E url1)))
      (<[cache_path E url1 := body]> fs)
      [EvLogin; EvHttpGet url1; EvDownload final_url (cache_path E url1)]).
  { rewrite pooch_retrieve_run. fold (cache_path E url1).
    rewrite bool_decide_eq_false_2 by (rewrite Hfile; by intros [? ?]).
    cbn [apply_processor]. rewrite then_ret, EarthdataDownloader_run.
    by rewrite Hlogin, Hget, Hbody. }
  assert (Hsecond :
    retrieve_all E None [url2] (<[cache_path E url1 := body]> fs) =
    Outcome (inr [PStr (cache_path E url1)])
      (<[cache_path E url1 := body]> fs) []).
  { rewrite retrieve_all_cached.
    - unfold cache_path. by rewrite Hname.
    - constructor; [|done]. unfold cache_path. rewrite <- Hname.
      rewrite lookup_insert_eq. eauto. }
  change (retrieve_all E None [url1; url2]) with
    (y ← pooch_retrieve url1 (pathlib.name url1) (pooch_os_cache E "icepack")
           (EarthdataDownloader E) None;
     ys ← retrieve_all E None [url2]; ret (y :: ys)).
  rewrite bind_assoc, (bind_run _ _ _ _ _ _ Hfirst).
  rewrite bind_assoc, (bind_run _ _ _ _ _ _ Hsecond).
  rewrite bind_ret_l. done.
Qed.

Lemma same_name_urls_share_one_file_witness :
  _fetch_nsidc Stub2.mirrored Stub.search ∅ ∅ =
  Outcome (inr (PList [PStr (Stub.cache +:+ "/a.nc");
                       PStr (Stub.cache +:+ "/a.nc")]))
    (<[Stub.cache +:+ "/a.nc" := Stub.body_of "https://host/g/a.nc"]> ∅)
    [EvSearchData Stub.search; EvLogin; EvHttpGet "https://host/g/a.nc";
     EvDownload "https://host/g/a.nc" (Stub.cache +:+ "/a.nc")].
Proof.
  exact (same_name_urls_share_one_file Stub2.mirrored Stub.search ∅ ∅
           "https://host/g/a.nc" "https://mirror/h/a.nc" ("user", "secret")
           "https://host/g/a.nc" (Stub.body_of "https://host/g/a.nc")
           eq_refl eq_refl eq_refl eq_refl eq_refl eq_refl eq_refl eq_refl).
Defined.

(** ** A cold cache, file by file *)

Lemma cache_path_inj (E : collaborators) (url1 url2 : string) :
  cache_path E url1 = cache_path E url2 ->
  pathlib.name url1 = pathlib.name url2.
Proof.
  unfold cache_path. intros Heq.
  apply (inj (String.app _)) in Heq. by apply (inj (String.app _)) in Heq.
Qed.

Lemma retrieve_all_cold (E : collaborators) (auth : string * string)
    (final body : string -> string) (urls : list string) :
  earthaccess_login E = inr auth ->
  (forall url, In url urls -> requests_get_url E url = inr (final url)) ->
  (forall url, In url urls ->
     http_transfer E (Some auth) (final url) = inr (body url)) ->
  NoDup (map pathlib.name urls) ->
  forall fs,
  Forall (fun url => fs !! cache_path E url = None) urls ->
  retrieve_all E None urls fs =
  Outcome (inr (map (fun url => PStr (cache_path E url)) urls))
    (foldl (fun acc url => <[cache_path E url := body url]> acc) fs urls)
    (flat_map (fun url => [EvLogin; EvHttpGet url;
                           EvDownload (final url) (cache_path E url)]) urls).
Proof.
  intros Hlogin. induction urls as [|url urls IH];
    intros Hget Hbody Hnames fs Hfiles; [done|].
  cbn [map] in Hnames. apply NoDup_cons in Hnames as [Hfresh Hnames].
  apply Forall_cons_1 in Hfiles as [Hfile Hfiles].
  assert (Hfirst :
    pooch_retrieve url (pathlib.name url) (pooch_os_cache E "icepack")
      (EarthdataDownloader E) None fs =
    Outcome (inr (PStr (cache_path E url)))
      (<[cache_path E url := body url]> fs)
      [EvLogin; EvHttpGet url; EvDownload (final url) (cache_path E url)]).
  { rewrite pooch_retrieve_run. fold (cache_path E url).
    rewrite bool_decide_eq_false_2 by (rewrite Hfile; by intros [? ?]).
    cbn [apply_processor]. rewrite then_ret, EarthdataDownloader_run.
    by rewrite Hlogin, (Hget url), (Hbody url) by (by left). }
  assert (Hrest : Forall (fun url' =>
            <[cache_path E url := body url]> fs !! cache_path E url' = None)
            urls).
  { apply List.Forall_forall. intros url' Hin.
    rewrite lookup_insert_ne.
    - by apply (proj1 (List.Forall_forall _ _) Hfiles).
    - intros Heq. apply cache_path_inj in Heq. apply Hfresh.
      rewrite Heq. by apply list_elem_of_In, in_map. }
  specialize (IH (fun u Hu => Hget u (or_intror Hu))
                 (fun u Hu => Hbody u (or_intror Hu)) Hnames _ Hrest).
  change (retrieve_all E None (url :: urls)) with
    (y ← pooch_retrieve url (pathlib.name url) (pooch_os_cache E "icepack")
           (EarthdataDownloader E) None;
     ys ← retrieve_all E None urls; ret (y :: ys)).
  rewrite (bind_run _ _ _ _ _ _ Hfirst), (bind_run _ _ _ _ _ _ IH).
  cbn. by rewrite app_nil_r.
Qed.

(** X24. On a cold cache every file costs a login of its own.  When a fetch
    without a processor resolves URLs of pairwise different names, each a
    name that names a file (not empty, not [..]) and none of them in the
    cache, and the login, the resolutions and the transfers
    succeed, the fetch takes the URLs in order and for each one logs in
    again, resolves the URL and downloads from where it leads into the
    file's place in the cache; it returns the places (the path itself for
    one URL), and the cache holds each body at its place. *)
Theorem cold_fetch_logs_in_for_every_file
    (E : collaborators) (search : gmap string string)
    (kwargs : gmap string kwarg) (fs : gmap string string)
    (urls : list string) (auth : string * string)
    (final body : string -> string) :
  kwargs !! "processor" = None ->
  value (_fetch_nsidc_urls E search kwargs fs) = inr urls ->
  NoDup (map pathlib.name urls) ->
  Forall (fun url => names_a_file (pathlib.name url) = true) urls ->
  Forall (fun url => fs !! cache_path E url = None) urls ->
  earthaccess_login E = inr auth ->
  (forall url, In url urls -> requests_get_url E url = inr (final url)) ->
  (forall url, In url urls ->
     http_transfer E (Some auth) (final url) = inr (body url)) ->
  _fetch_nsidc E search kwargs fs =
  Outcome
    (inr (unwrap_single (map (fun url => PStr (cache_path E url)) urls)))
    (foldl (fun acc url => <[cache_path E url := body url]> acc) fs urls)
    (events (_fetch_nsidc_urls E search kwargs fs) ++
     flat_map (fun url => [EvLogin; EvHttpGet url;
                           EvDownload (final url) (cache_path E url)]) urls).
Proof.
  intros Hnone Hurls Hnames Hnamed Hfiles Hlogin Hget Hbody.
  rewrite (fetch_nsidc_of_urls _ _ _ _ urls) by (by rewrite delete_id).
  rewrite Hnone, delete_id by done. cbn zeta.
  rewrite (bind_run _ _ _ _ _ _
             (retrieve_all_cold E auth final body urls Hlogin Hget Hbody
                Hnames fs Hfiles)).
  cbn. by rewrite app_nil_r.
Qed.

Lemma cold_fetch_logs_in_for_every_file_witness :
  _fetch_nsidc Stub.world Stub.search ∅ ∅ =
  Outcome
    (inr (PList [PStr (Stub.cache +:+ "/a.nc"); PStr (Stub.cache +:+ "/b.nc")]))
    (<[Stub.cache +:+ "/b.nc" := Stub.body_of "https://host/g/b.nc"]>
       (<[Stub.cache +:+ "/a.nc" := Stub.body_of "https://host/g/a.nc"]> ∅))
    [EvSearchData Stub.search;
     EvLogin; EvHttpGet "https://host/g/a.nc";
     EvDownload "https://host/g/a.nc" (Stub.cache +:+ "/a.nc");
     EvLogin; EvHttpGet "https://host/g/b.nc";
     EvDownload "https://host/g/b.nc" (Stub.cache +:+ "/b.nc")].
Proof.
  refine (cold_fetch_logs_in_for_every_file Stub.world Stub.search ∅ ∅
            ["https://host/g/a.nc"; "https://host/g/b.nc"] ("user", "secret")
            (fun url => url) Stub.body_of
            eq_refl eq_refl _ _ _ eq_refl (fun _ _ => eq_refl)
            (fun _ _ => eq_refl)).
  - apply (bool_decide_unpack _). vm_compute. exact I.
  - repeat constructor.
  - repeat constructor.
Defined.
